(** * Dependence of crime on the standard of living: the dependence analyzer

    A shallow embedding of [DependenceAnalyzer], which exists twice in the
    repository:

    - [src/dependence_analyzer.py]      (the root-level script, module [Root]);
    - [src/src/dependence_analyzer.py]  (the package used by [app.py],
                                         module [Package]).

    The statistics are binary64 values, modelled by Rocq's primitive
    floats: NaN, infinities and signed zeros behave as in IEEE 754, and no
    arithmetic operation raises.  A reduction of a series hands its value
    over as a [numpy.float64] scalar, except where pandas has nothing to
    reduce and answers the constant [np.nan], a built-in [float]: the
    package version calls [.round(3)] on its statistics, a method the
    built-in [float] does not have, so the kind of scalar is part of the
    model ([scalar], [Series_median], [Series_corr_scalar]).

    pandas, numpy and scipy are not part of the repository.  What the
    analyzer uses of pandas and numpy is modelled after their behaviour:
    [Series.median] skips missing values and is NaN when none is left,
    comparisons with NaN are false, [round] is numpy's, [df[mask]] and
    [df.round] build new tables, [df.loc[k] = row] overwrites the rows
    labelled [k] or appends one.  The values of [Series.corr] and
    [scipy.stats.ttest_ind] stay parameters. *)

From Stdlib Require Import List String Ascii ZArith Floats Bool Permutation Lia.
From Stdlib Require Uint63.
Import ListNotations.

Set Warnings "-inexact-float".

Local Open Scope string_scope.
Local Open Scope list_scope.
Local Open Scope float_scope.

(* ================================================================== *)
(** * Exceptions *)

Inductive exn : Type :=
| KeyError (column : string)   (* [df[column]] on a column the table lacks *)
| TypeError (column : string)  (* a numeric reduction of an object column  *)
| AttributeError (attribute : string).
                               (* a method the built-in [float] lacks      *)

Inductive result (A : Type) : Type :=
| Ok (a : A)
| Raise (e : exn).
Arguments Ok {A} a.
Arguments Raise {A} e.

Definition bind {A B : Type} (r : result A) (k : A -> result B) : result B :=
  match r with
  | Ok a => k a
  | Raise e => Raise e
  end.

Notation "x <- r ;; k" := (bind r (fun x => k))
  (at level 61, r at next level, right associativity).

(* ================================================================== *)
(** * numpy scalars *)

Module NumPy.

(** [numpy.isnan]. *)
Definition isnan (x : float) : bool := negb (x =? x).

(** [numpy.rint]: the nearest integer, halves to the even neighbour.
    A finite [x] is [(-1)^s * m * 2^e]; for [e >= 0] it is an integer. *)
Definition rint (x : float) : float :=
  match Prim2SF x with
  | S754_finite s m e =>
      if (0 <=? e)%Z then x
      else
        let d := (2 ^ (- e))%Z in
        let q := (Zpos m / d)%Z in
        let r := (Zpos m mod d)%Z in
        let k := match (2 * r ?= d)%Z with
                 | Lt => q
                 | Gt => (q + 1)%Z
                 | Eq => if Z.even q then q else (q + 1)%Z
                 end in
        let y := of_uint63 (Uint63.of_Z k) in
        if s then - y else y
  | _ => x
  end.

(** [x.round(decimals)] for [decimals >= 0]: numpy scales, rounds to an
    integer and scales back, [rint(x * 10**decimals) / 10**decimals]. *)
Definition round (x : float) (decimals : nat) : float :=
  let f := of_uint63 (Uint63.of_Z (10 ^ Z.of_nat decimals)) in
  rint (x * f) / f.

End NumPy.

(* ================================================================== *)
(** * pandas series and tables *)

Module Pandas.

(** ** Series *)

(** [Series.dropna()] on the values. *)
Definition dropna (xs : list float) : list float :=
  filter (fun x => negb (NumPy.isnan x)) xs.

Fixpoint insert (x : float) (l : list float) : list float :=
  match l with
  | [] => [x]
  | y :: l' => if x <=? y then x :: l else y :: insert x l'
  end.

Definition sort (l : list float) : list float := fold_right insert [] l.

(** The value of [Series.median()] ([skipna=True]): the middle of the
    sorted non-missing values, the mean of the two middle ones for an even
    count, NaN when no value is left.  The mean is numpy's, a sum that
    starts from [0.0] over the count: a median that is zero is [+0.0]. *)
Definition median (xs : list float) : float :=
  let v := sort (dropna xs) in
  let n := List.length v in
  match n with
  | O => nan
  | _ =>
      if Nat.even n
      then (0 + nth (n / 2 - 1) v nan + nth (n / 2) v nan) / 2
      else (0 + nth (n / 2) v nan) / 1
  end.

(** ** Scalars

    What a reduction returns: a [numpy.float64], or the built-in [float]
    that the constant [np.nan] is. *)
Inductive scalar : Type :=
| numpy_float64 (x : float)
| builtin_float (x : float).

(** The value, whatever the kind; arithmetic on either kind, and on a mix
    of them, is binary64 arithmetic. *)
Definition value (s : scalar) : float :=
  match s with
  | numpy_float64 x => x
  | builtin_float x => x
  end.

(** [s.round(decimals)]: numpy's rounding on a [numpy.float64]; the
    built-in [float] has no attribute [round]. *)
Definition scalar_round (s : scalar) (decimals : nat) : result float :=
  match s with
  | numpy_float64 x => Ok (NumPy.round x decimals)
  | builtin_float _ => Raise (AttributeError "round")
  end.

(** [Series.median()]: a series without any row has nothing to reduce and
    gives [np.nan]; any other gives a [numpy.float64], NaN when all its
    values are missing. *)
Definition Series_median (xs : list float) : scalar :=
  match xs with
  | [] => builtin_float nan
  | _ :: _ => numpy_float64 (median xs)
  end.

(** A row in which both values are present. *)
Definition complete (xy : float * float) : bool :=
  negb (NumPy.isnan (fst xy)) && negb (NumPy.isnan (snd xy)).

(** [a.corr(b)] for two columns of one table: the pairs with a missing
    value are dropped; with no pair left the answer is [np.nan], otherwise
    the [numpy.float64] that the correlation function [corr] computes. *)
Definition Series_corr_scalar (corr : list float -> list float -> float)
    (xs ys : list float) : scalar :=
  if existsb complete (combine xs ys)
  then numpy_float64 (corr xs ys)
  else builtin_float nan.

(** ** Tables *)

(** A row of a joined indicator table: its index label, the [COUNTRY] key
    (an object column) and the numeric indicators in column order. *)
Record Row : Type := mkRow {
  label : nat;
  COUNTRY : string;
  cells : list float
}.

Record DataFrame : Type := mkDataFrame {
  columns : list string;   (* names of the numeric columns *)
  rows : list Row
}.

Fixpoint index_of (c : string) (cols : list string) : option nat :=
  match cols with
  | [] => None
  | c' :: cols' =>
      if String.eqb c c' then Some O
      else option_map S (index_of c cols')
  end.

(** The position of a column that a numeric reduction can read. *)
Definition numeric_column (df : DataFrame) (c : string) : result nat :=
  if String.eqb c "COUNTRY" then Raise (TypeError c)
  else match index_of c (columns df) with
       | Some j => Ok j
       | None => Raise (KeyError c)
       end.

(** The value of row [r] in the column at position [j]; a cell the row
    does not have is missing. *)
Definition cell (j : nat) (r : Row) : float := nth j (cells r) nan.

(** [df[c]] as the list of its values. *)
Definition series (df : DataFrame) (j : nat) : list float :=
  map (cell j) (rows df).

(** [df[mask]]: boolean indexing keeps the rows where the mask holds,
    labels and order unchanged. *)
Definition getitem_mask (df : DataFrame) (mask : Row -> bool) : DataFrame :=
  mkDataFrame (columns df) (filter mask (rows df)).

Definition round_row (decimals : nat) (r : Row) : Row :=
  mkRow (label r) (COUNTRY r)
        (map (fun x => NumPy.round x decimals) (cells r)).

(** [df.round(decimals)]: a new table, every numeric cell rounded. *)
Definition round (df : DataFrame) (decimals : nat) : DataFrame :=
  mkDataFrame (columns df) (map (round_row decimals) (rows df)).

(** A row of the result table, the eight columns of [_create_df]. *)
Record ResultRow : Type := mkResultRow {
  COMPARER_COLUMN : string;
  AVERAGE_COMPARER : float;
  AVERAGE_COMPARABLE_HIGHER : float;
  AVERAGE_COMPARABLE_LOWER : float;
  DIFFERENCE : float;
  DIFFERENCE_PERCENT : float;
  CORRELATION : float;
  P_VALUE : float
}.

(** The result table: index label and row, in table order. *)
Definition ResultTable : Type := list (string * ResultRow).

(** [pd.DataFrame(columns=[...])]. *)
Definition empty : ResultTable := [].

Definition has_label (k : string) (t : ResultTable) : bool :=
  existsb (fun kr => String.eqb (fst kr) k) t.

(** [df.loc[k] = row]: every row labelled [k] is overwritten; a table
    without that label is enlarged by one row at the end. *)
Definition loc_set (t : ResultTable) (k : string) (row : ResultRow)
  : ResultTable :=
  if has_label k t
  then map (fun kr => if String.eqb (fst kr) k then (fst kr, row) else kr) t
  else t ++ [(k, row)].

(** [df.loc[k]] read back: the rows labelled [k]. *)
Definition loc_get (t : ResultTable) (k : string) : list ResultRow :=
  map snd (filter (fun kr => String.eqb (fst kr) k) t).

Definition index (t : ResultTable) : list string := map fst t.

End Pandas.

Import Pandas.

(* ================================================================== *)
(** * The objects a call works on

    [calculate_dependence_by_column] receives references to two tables,
    [df] and [df_result], two objects in every call of [App.run] (the
    joined table comes from [pd.merge], the result table from
    [_create_df]); the console and the shown figures are the other places
    a call could leave a trace. *)

Record World : Type := mkWorld {
  df : DataFrame;            (* the joined source table *)
  df_result : ResultTable;   (* the accumulator, created by [_create_df] *)
  stdout : list string;      (* lines printed *)
  figures : list string      (* titles of the figures shown *)
}.

Definition Stats : Type := (float * float * float * float * float * float)%type.

(* ================================================================== *)
(** * [src/src/dependence_analyzer.py] *)

Module Package.
Section DependenceAnalyzer.

(** [Series.corr] (Pearson, missing values excluded pairwise) and
    [scipy.stats.ttest_ind] (default arguments; statistic and two-tailed
    p-value) are library code: the analyzer is stated for any outcome of
    theirs. *)
Variable Series_corr : list float -> list float -> float.
Variable ttest_ind : list float -> list float -> float * float.

(** Line 36, right of the column lookup: [.median().round(3)]. *)
Definition median_comparer (df : DataFrame) (j : nat) : result float :=
  scalar_round (Series_median (series df j)) 3.

Definition group_high_comparer (df : DataFrame) (j : nat) (m : float)
  : DataFrame :=
  Pandas.round (getitem_mask df (fun r => m <? cell j r)) 3.

Definition group_low_comparer (df : DataFrame) (j : nat) (m : float)
  : DataFrame :=
  Pandas.round (getitem_mask df (fun r => cell j r <=? m)) 3.

Definition calculate_dependence_statistics
    (df : DataFrame) (comparer_column comparable_column : string)
  : result Stats :=
  j <- numeric_column df comparer_column ;;
  median_comparer <- median_comparer df j ;;
  k <- numeric_column df comparable_column ;;
  median_comparable <- scalar_round (Series_median (series df k)) 3 ;;
  let group_high_comparer := group_high_comparer df j median_comparer in
  let group_low_comparer := group_low_comparer df j median_comparer in
  median_comparable_high <-
    scalar_round (Series_median (series group_high_comparer k)) 3 ;;
  median_comparable_low <-
    scalar_round (Series_median (series group_low_comparer k)) 3 ;;
  correlation <-
    scalar_round
      (Series_corr_scalar Series_corr (series df j) (series df k)) 3 ;;
  let group_high := dropna (series group_high_comparer k) in
  let group_low := dropna (series group_low_comparer k) in
  let '(t_stat, p_value) := ttest_ind group_high group_low in
  let p_value := NumPy.round p_value 3 in
  Ok (median_comparer, median_comparable, median_comparable_high,
      median_comparable_low, correlation, p_value).

(** The operands of [-], [/] and [*] are float64 scalars: the quotient by
    zero is an infinity or NaN (numpy warns and goes on). *)
Definition _save_stats_to_df
    (df : ResultTable) (comparer_column : string)
    (avg_comparer avg_comparable_high avg_comparable_low avg_comparable
       corr p_value : float)
  : ResultTable :=
  let diff := abs (avg_comparable_high - avg_comparable_low) in
  loc_set df comparer_column
    {| COMPARER_COLUMN := comparer_column;
       AVERAGE_COMPARER := avg_comparer;
       AVERAGE_COMPARABLE_HIGHER := avg_comparable_high;
       AVERAGE_COMPARABLE_LOWER := avg_comparable_low;
       DIFFERENCE := diff;
       DIFFERENCE_PERCENT := diff / avg_comparable * 100;
       CORRELATION := corr;
       P_VALUE := p_value |}.

(** Defined by the class, called nowhere. *)
Definition _plot_dependence (comparer_column comparable_column : string)
    (w : World) : result unit * World :=
  (Ok tt,
   mkWorld (df w) (df_result w) (stdout w)
     (figures w ++ [comparer_column ++ " vs " ++ comparable_column]%string)).

Definition calculate_dependence_by_column
    (comparer_column comparable_column : string) (w : World)
  : result unit * World :=
  match calculate_dependence_statistics (df w)
          comparer_column comparable_column with
  | Raise e => (Raise e, w)
  | Ok (avg_comparer, avg_comparable, avg_comparable_high,
        avg_comparable_low, corr, p_value) =>
      (Ok tt,
       mkWorld (df w)
         (_save_stats_to_df (df_result w) comparer_column avg_comparer
            avg_comparable_high avg_comparable_low avg_comparable
            corr p_value)
         (stdout w) (figures w))
  end.

End DependenceAnalyzer.
End Package.

(* ================================================================== *)
(** * [src/dependence_analyzer.py] *)

Module Root.
Section DependenceAnalyzer.

(** This version calls [.round(3)] on the p-value only, a [numpy.float64]
    whatever the samples: the medians and the correlation enter the
    arithmetic of [_save_stats_to_df] by their [value], of either kind. *)
Variable Series_corr : list float -> list float -> float.
Variable ttest_ind : list float -> list float -> float * float.

Definition median_comparer (df : DataFrame) (j : nat) : float :=
  median (series df j).

Definition group_high_comparer (df : DataFrame) (j : nat) (m : float)
  : DataFrame :=
  getitem_mask df (fun r => m <? cell j r).

Definition group_low_comparer (df : DataFrame) (j : nat) (m : float)
  : DataFrame :=
  getitem_mask df (fun r => cell j r <=? m).

Definition calculate_dependence_statistics
    (df : DataFrame) (comparer_column comparable_column : string)
  : result Stats :=
  j <- numeric_column df comparer_column ;;
  k <- numeric_column df comparable_column ;;
  let median_comparer := median_comparer df j in
  let median_comparable := median (series df k) in
  let group_high_comparer := group_high_comparer df j median_comparer in
  let group_low_comparer := group_low_comparer df j median_comparer in
  let median_comparable_high :=
    median (series group_high_comparer k) in
  let median_comparable_low :=
    median (series group_low_comparer k) in
  let correlation := Series_corr (series df j) (series df k) in
  let group_high := dropna (series group_high_comparer k) in
  let group_low := dropna (series group_low_comparer k) in
  let '(t_stat, p_value) := ttest_ind group_high group_low in
  Ok (median_comparer, median_comparable, median_comparable_high,
      median_comparable_low, correlation, NumPy.round p_value 3).

Definition _save_stats_to_df
    (df : ResultTable) (comparer_column : string)
    (avg_comparer avg_comparable_high avg_comparable_low avg_comparable
       corr p_value : float)
  : ResultTable :=
  let diff := abs (avg_comparable_high - avg_comparable_low) in
  loc_set df comparer_column
    {| COMPARER_COLUMN := comparer_column;
       AVERAGE_COMPARER := avg_comparer;
       AVERAGE_COMPARABLE_HIGHER := avg_comparable_high;
       AVERAGE_COMPARABLE_LOWER := avg_comparable_low;
       DIFFERENCE := diff;
       DIFFERENCE_PERCENT := diff / avg_comparable * 100;
       CORRELATION := corr;
       P_VALUE := p_value |}.

(** Defined by the class; its call, like the one of
    [_print_dependence_statistics], is commented out. *)
Definition _plot_dependence (comparer_column comparable_column : string)
    (w : World) : result unit * World :=
  (Ok tt,
   mkWorld (df w) (df_result w) (stdout w)
     (figures w ++ [comparer_column ++ " vs " ++ comparable_column]%string)).

Definition calculate_dependence_by_column
    (comparer_column comparable_column : string) (w : World)
  : result unit * World :=
  match calculate_dependence_statistics (df w)
          comparer_column comparable_column with
  | Raise e => (Raise e, w)
  | Ok (avg_comparer, avg_comparable, avg_comparable_high,
        avg_comparable_low, corr, p_value) =>
      (Ok tt,
       mkWorld (df w)
         (_save_stats_to_df (df_result w) comparer_column avg_comparer
            avg_comparable_high avg_comparable_low avg_comparable
            corr p_value)
         (stdout w) (figures w))
  end.

End DependenceAnalyzer.
End Root.

(* ================================================================== *)
(** * The rest of the analyzer class *)

(** [str] methods, on ASCII text (a byte outside ASCII is left alone). *)
Module Python.

Fixpoint map_chars (f : ascii -> ascii) (s : string) : string :=
  match s with
  | EmptyString => EmptyString
  | String c s' => String (f c) (map_chars f s')
  end.

(** [s.replace(old, new)] for one-character [old] and [new]. *)
Definition replace (old new : ascii) (s : string) : string :=
  map_chars (fun c => if Ascii.eqb c old then new else c) s.

Definition is_upper (c : ascii) : bool :=
  (65 <=? nat_of_ascii c)%nat && (nat_of_ascii c <=? 90)%nat.

Definition lower_char (c : ascii) : ascii :=
  if is_upper c then ascii_of_nat (nat_of_ascii c + 32) else c.

(** [s.lower()]. *)
Definition lower (s : string) : string := map_chars lower_char s.

Fixpoint isascii (s : string) : bool :=
  match s with
  | EmptyString => true
  | String c s' => (nat_of_ascii c <? 128)%nat && isascii s'
  end.

(** [c in s]. *)
Fixpoint contains (c : ascii) (s : string) : bool :=
  match s with
  | EmptyString => false
  | String c' s' => Ascii.eqb c' c || contains c s'
  end.

End Python.

(** [DependenceAnalyzer.COMPARER_COLUMNS], the same tuple in both files. *)
Definition COMPARER_COLUMNS : list string :=
  [ "QUALITY_OF_LIFE_INDEX"; "PURCHASING_POWER_INDEX"; "HEALTH_CARE_INDEX";
    "COST_OF_LIVING_INDEX"; "PROPERTY_PRICE_TO_INCOME_RATIO";
    "POLLUTION_INDEX"; "CLIMATE_INDEX" ].

(** [DependenceAnalyzer._format_column_name] of
    [src/dependence_analyzer.py]. *)
Definition _format_column_name (column_name : string) : string :=
  Python.lower (Python.replace "_" " " column_name).

(* ================================================================== *)
(** * The drivers

    [App.run] reads four files, joins them, fills a result table per
    target indicator and writes it.  What [pd.read_csv], [pd.merge] and
    [DataFrame.to_csv] do is the library's and the file system's business:
    they are parameters, each giving the table or the message of the
    exception it raises. *)

Inductive raised : Type :=
| AnalyzerError (e : exn)          (* raised by a statistic *)
| LibraryError (message : string). (* raised by [pd.merge] or [to_csv] *)

Inductive outcome (A : Type) : Type :=
| Returned (a : A)
| Raised (e : raised).
Arguments Returned {A} a.
Arguments Raised {A} e.

(** What a run leaves behind: the lines printed, the figures shown and
    the files written, each in order. *)
Record Process : Type := mkProcess {
  console : list string;
  shown : list string;
  files : list (string * ResultTable)
}.

Definition Run (A : Type) : Type := Process -> outcome A * Process.

Definition ret {A : Type} (a : A) : Run A := fun p => (Returned a, p).

Definition then_ {A B : Type} (m : Run A) (k : A -> Run B) : Run B :=
  fun p =>
    match m p with
    | (Returned a, p') => k a p'
    | (Raised e, p') => (Raised e, p')
    end.

Notation "x <-- m ;;; k" := (then_ m (fun x => k))
  (at level 61, m at next level, right associativity).

(** [print(line)]. *)
Definition print (line : string) : Run unit :=
  fun p => (Returned tt, mkProcess (console p ++ [line]) (shown p) (files p)).

(** A library call that gives a value or raises. *)
Definition library {A : Type} (r : string + A) : Run A :=
  fun p =>
    match r with
    | inl message => (Raised (LibraryError message), p)
    | inr a => (Returned a, p)
    end.

(** [for x in xs: t = body(t, x)], left when a step raises. *)
Fixpoint for_each {A S : Type} (xs : list A) (body : S -> A -> Run S) (t : S)
  : Run S :=
  match xs with
  | [] => ret t
  | x :: xs' => t' <-- body t x ;;; for_each xs' body t'
  end.

(** [table.to_csv(path)]; [raises] is [None], or the message of what the
    write raised. *)
Definition to_csv (raises : option string) (table : ResultTable)
    (path : string) : Run unit :=
  fun p =>
    match raises with
    | Some message => (Raised (LibraryError message), p)
    | None =>
        (Returned tt,
         mkProcess (console p) (shown p) (files p ++ [(path, table)]))
    end.

(** A call of the analyzer on the table [source] and the result table
    [table], which it hands back as mutated. *)
Definition by_column
    (calculate_dependence_by_column :
       string -> string -> World -> result unit * World)
    (source : DataFrame) (table : ResultTable)
    (comparer_column comparable_column : string) : Run ResultTable :=
  fun p =>
    let '(r, w) :=
      calculate_dependence_by_column comparer_column comparable_column
        (mkWorld source table (console p) (shown p)) in
    let p' := mkProcess (stdout w) (figures w) (files p) in
    match r with
    | Ok _ => (Returned (df_result w), p')
    | Raise e => (Raised (AnalyzerError e), p')
    end.

(** ** [src/app.py] *)

Module App.
Section App.

Variable Series_corr : list float -> list float -> float.
Variable ttest_ind : list float -> list float -> float * float.
(** [pd.read_csv(path)]. *)
Variable read_csv : string -> string + DataFrame.
(** [pd.merge(left, right, on="COUNTRY")]. *)
Variable merge : DataFrame -> DataFrame -> string + DataFrame.
(** What [to_csv(path)] raises, if anything. *)
Variable to_csv_raises : string -> option string.
(** [self._dir]. *)
Variable _dir : string.

Definition _read_df
  : string + (DataFrame * DataFrame * DataFrame * DataFrame) :=
  match read_csv (_dir ++ "gdp_per_capita.csv") with
  | inl e => inl e
  | inr gdp_df =>
      match read_csv (_dir ++ "quality_of_life.csv") with
      | inl e => inl e
      | inr quality_of_life_df =>
          match read_csv (_dir ++ "crime_index.csv") with
          | inl e => inl e
          | inr crime_df =>
              match read_csv (_dir ++ "murder_percent.csv") with
              | inl e => inl e
              | inr murder_df =>
                  inr (gdp_df, quality_of_life_df, crime_df, murder_df)
              end
          end
      end
  end.

Definition _create_df : ResultTable := Pandas.empty.

Definition calculate_dependence_by_column :=
  by_column (Package.calculate_dependence_by_column Series_corr ttest_ind).

Definition run : Run unit :=
  match _read_df with
  | inl e => print ("Error reading dataframes: " ++ e)
  | inr (gdp_df, quality_of_life_df, crime_df, murder_df) =>
      gdp_and_crime_df <-- library (merge gdp_df crime_df) ;;;
      crime_and_qol_df <-- library (merge crime_df quality_of_life_df) ;;;
      gdp_and_murder_df <-- library (merge gdp_df murder_df) ;;;
      murder_and_qol_df <-- library (merge murder_df quality_of_life_df) ;;;
      let crime_df := _create_df in
      let murder_df := _create_df in
      crime_df <-- calculate_dependence_by_column
                     gdp_and_crime_df crime_df "GDP" "CRIME_INDEX" ;;;
      crime_df <-- for_each COMPARER_COLUMNS
                     (fun crime_df comparer_column =>
                        calculate_dependence_by_column
                          crime_and_qol_df crime_df
                          comparer_column "CRIME_INDEX")
                     crime_df ;;;
      _ <-- to_csv (to_csv_raises (_dir ++ "crime_dependencies.csv"))
              crime_df (_dir ++ "crime_dependencies.csv") ;;;
      murder_df <-- calculate_dependence_by_column
                      gdp_and_murder_df murder_df "GDP" "RATE_PER_100000_N" ;;;
      murder_df <-- for_each COMPARER_COLUMNS
                      (fun murder_df comparer_column =>
                         calculate_dependence_by_column
                           murder_and_qol_df murder_df
                           comparer_column "RATE_PER_100000_N")
                      murder_df ;;;
      to_csv (to_csv_raises (_dir ++ "murder_dependencies.csv"))
        murder_df (_dir ++ "murder_dependencies.csv")
  end.

End App.
End App.

(** ** [App] of [src/dependence_analyzer.py] *)

Module RootApp.
Section App.

Variable Series_corr : list float -> list float -> float.
Variable ttest_ind : list float -> list float -> float * float.
Variable read_csv : string -> string + DataFrame.
Variable merge : DataFrame -> DataFrame -> string + DataFrame.
Variable to_csv_raises : string -> option string.

Definition _read_df
  : string + (DataFrame * DataFrame * DataFrame * DataFrame) :=
  match read_csv "gdp_per_capita.csv" with
  | inl e => inl e
  | inr gdp_df =>
      match read_csv "quality_of_life.csv" with
      | inl e => inl e
      | inr quality_of_life_df =>
          match read_csv "crime_index.csv" with
          | inl e => inl e
          | inr crime_df =>
              match read_csv "murder_percent.csv" with
              | inl e => inl e
              | inr murder_df =>
                  inr (gdp_df, quality_of_life_df, crime_df, murder_df)
              end
          end
      end
  end.

Definition calculate_dependence_by_column :=
  by_column (Root.calculate_dependence_by_column Series_corr ttest_ind).

Definition run : Run unit :=
  match _read_df with
  | inl e => print ("Error reading dataframes: " ++ e)
  | inr (gdp_df, quality_of_life_df, crime_df, murder_df) =>
      gdp_and_crime_df <-- library (merge gdp_df crime_df) ;;;
      crime_and_qol_df <-- library (merge crime_df quality_of_life_df) ;;;
      let crime_df := Pandas.empty in
      crime_df <-- calculate_dependence_by_column
                     gdp_and_crime_df crime_df "GDP" "CRIME_INDEX" ;;;
      crime_df <-- for_each COMPARER_COLUMNS
                     (fun crime_df comparer_column =>
                        calculate_dependence_by_column
                          crime_and_qol_df crime_df
                          comparer_column "CRIME_INDEX")
                     crime_df ;;;
      to_csv (to_csv_raises "crime_dependencies.csv")
        crime_df "crime_dependencies.csv"
  end.

End App.
End RootApp.


(* ================================================================== *)
(** * Vocabulary of the properties *)

(** The rows of [df] without a missing comparer value. *)
Definition present (df : DataFrame) (j : nat) : list Row :=
  filter (fun r => negb (NumPy.isnan (cell j r))) (rows df).

(** [high] and [low] share the rows of [df] that have a comparer value:
    each such row is in one of the two groups, once. *)
Definition groups_cover (df : DataFrame) (j : nat) (high low : DataFrame)
  : Prop :=
  Permutation (present df j) (rows high ++ rows low).

(** Some row is stored under [c], and every row stored under [c]
    satisfies [P]. *)
Definition row_written (t : ResultTable) (c : string) (P : ResultRow -> Prop)
  : Prop :=
  loc_get t c <> [] /\ forall row, In row (loc_get t c) -> P row.

(** [DIFFERENCE_PERCENT] over a zero median: NaN when [DIFFERENCE] is zero
    or NaN, an infinity otherwise. *)
Definition percent_over_zero (row : ResultRow) : Prop :=
  if NumPy.isnan (DIFFERENCE row) || (DIFFERENCE row =? 0)
  then DIFFERENCE_PERCENT row = nan
  else DIFFERENCE_PERCENT row = infinity \/
       DIFFERENCE_PERCENT row = neg_infinity.

Definition other_rows (c : string) (t : ResultTable) : ResultTable :=
  filter (fun kr => negb (String.eqb (fst kr) c)) t.

(** What a call on [w] with comparer column [c] may have changed: nothing
    but the rows of the result table labelled [c]; it returns [None], or
    raises before anything is written. *)
Definition only_comparer_row_updated
    (c : string) (w : World) (out : result unit * World) : Prop :=
  let w' := snd out in
  df w' = df w /\
  stdout w' = stdout w /\
  figures w' = figures w /\
  other_rows c (df_result w') = other_rows c (df_result w) /\
  (forall k, k <> c -> loc_get (df_result w') k = loc_get (df_result w) k) /\
  (fst out = Ok tt \/ (exists e, fst out = Raise e) /\ w' = w).

(** The row [_save_stats_to_df] stores for the statistics [s], in the order
    [calculate_dependence_statistics] returns them. *)
Definition row_of (c : string) (s : Stats) : ResultRow :=
  let '(a, m, h, l, r, p) := s in
  {| COMPARER_COLUMN := c;
     AVERAGE_COMPARER := a;
     AVERAGE_COMPARABLE_HIGHER := h;
     AVERAGE_COMPARABLE_LOWER := l;
     DIFFERENCE := abs (h - l);
     DIFFERENCE_PERCENT := abs (h - l) / m * 100;
     CORRELATION := r;
     P_VALUE := p |}.

(** One processed column: its name and the statistics handed to
    [_save_stats_to_df], as [calculate_dependence_by_column] does. *)
Definition save (t : ResultTable) (cs : string * Stats) : ResultTable :=
  let '(c, (a, m, h, l, r, p)) := cs in
  Package._save_stats_to_df t c a h l m r p.
Arguments save : simpl never.

Definition save_all (t : ResultTable) (css : list (string * Stats))
  : ResultTable :=
  fold_left save css t.

(** The same with the [_save_stats_to_df] of the root-level version. *)
Definition save_root (t : ResultTable) (cs : string * Stats) : ResultTable :=
  let '(c, (a, m, h, l, r, p)) := cs in
  Root._save_stats_to_df t c a h l m r p.
Arguments save_root : simpl never.

Definition save_all_root (t : ResultTable) (css : list (string * Stats))
  : ResultTable :=
  fold_left save_root css t.

(** What [_format_column_name] does to one character. *)
Definition format_char (c : ascii) : ascii :=
  Python.lower_char (if Ascii.eqb c "_" then " " else c)%char.

(** The message of the first call, in order, that raised. *)
Fixpoint first_failure {A : Type} (calls : list (string + A))
  : option string :=
  match calls with
  | [] => None
  | inl message :: _ => Some message
  | inr _ :: calls' => first_failure calls'
  end.

(** The result table with one row per processed column, in order:
    [GDP] first, then the seven [COMPARER_COLUMNS]. *)
Definition table_of (stats : string -> Stats) : ResultTable :=
  map (fun c => (c, row_of c (stats c))) ("GDP" :: COMPARER_COLUMNS).

(** Some character of [s] is an upper-case ASCII letter. *)
Fixpoint has_upper (s : string) : bool :=
  match s with
  | EmptyString => false
  | String c s' => Python.is_upper c || has_upper s'
  end.

(** The values of the columns at positions [j] and [k], row by row. *)
Definition pairs (df : DataFrame) (j k : nat) : list (float * float) :=
  map (fun r => (cell j r, cell k r)) (rows df).

Definition no_rows {A : Type} (l : list A) : bool :=
  match l with
  | [] => true
  | _ :: _ => false
  end.

(** One of the statistics the package version rounds is the built-in NaN:
    the table has no row, one of the two groups has no row, or no row has
    both the comparer and the comparable value. *)
Definition builtin_nan_statistic (df : DataFrame) (j k : nat) : bool :=
  let m := NumPy.round (median (series df j)) 3 in
  no_rows (rows df)
  || no_rows (rows (Package.group_high_comparer df j m))
  || no_rows (rows (Package.group_low_comparer df j m))
  || negb (existsb complete (pairs df j k)).

(** [x] is a value rounding to 3 decimals leaves as it is. *)
Definition unchanged_by_rounding (x : float) : bool :=
  PrimFloat.Leibniz.eqb (NumPy.round x 3) x.

(* ================================================================== *)
(** * Sample tables

    The samples run the analyzer with the two library statistics left
    open: whatever [Series.corr] and [ttest_ind] return plays no part in
    what the samples show, and NaN stands in for both. *)

Definition any_corr (_ _ : list float) : float := nan.
Definition any_ttest (_ _ : list float) : float * float := (nan, nan).

Definition world_of (t : DataFrame) : World := mkWorld t empty [] [].

(** The four countries of the specification's scenario. *)
Definition four_countries : DataFrame :=
  mkDataFrame ["X"; "Y"]
    [ mkRow 0 "A" [1; 10]; mkRow 1 "B" [2; 20];
      mkRow 2 "C" [3; 30]; mkRow 3 "D" [4; 40] ].

(** Every country has the same comparer value. *)
Definition constant_comparer : DataFrame :=
  mkDataFrame ["X"; "Y"]
    [ mkRow 0 "A" [5; 10]; mkRow 1 "B" [5; 20]; mkRow 2 "C" [5; 30] ].


(** A table without any row, and one in which no row has both values. *)
Definition no_countries : DataFrame := mkDataFrame ["X"; "Y"] [].

Definition no_complete_row : DataFrame :=
  mkDataFrame ["X"; "Y"]
    [ mkRow 0 "A" [1; nan]; mkRow 1 "B" [2; nan];
      mkRow 2 "C" [nan; 30]; mkRow 3 "D" [nan; 40] ].

(** The comparable column has median 0. *)
Definition zero_median : DataFrame :=
  mkDataFrame ["X"; "Y"]
    [ mkRow 0 "A" [1; -10]; mkRow 1 "B" [2; 0];
      mkRow 2 "C" [3; 0]; mkRow 3 "D" [4; 10] ].

(** No comparer value is missing, the two middle ones are the infinities. *)
Definition infinite_comparer : DataFrame :=
  mkDataFrame ["X"; "Y"]
    [ mkRow 0 "A" [neg_infinity; 10]; mkRow 1 "B" [infinity; 20] ].

(** Indicators with more than 3 decimals. *)
Definition fine_grained : DataFrame :=
  mkDataFrame ["X"; "Y"]
    [ mkRow 0 "A" [1; 0.0004]; mkRow 1 "B" [2; 0.0014];
      mkRow 2 "C" [3.12345; 0.1]; mkRow 3 "D" [4; 0.3] ].

(** Indicators given in tenths. *)
Definition tenths : DataFrame :=
  mkDataFrame ["X"; "Y"] [ mkRow 0 "A" [1; 0.1]; mkRow 1 "B" [2; 0.3] ].

(** Four input files for the drivers, and an inner join on [COUNTRY]
    to run them with. *)
Definition gdp_file : DataFrame :=
  mkDataFrame ["GDP"]
    [ mkRow 0 "A" [1000]; mkRow 1 "B" [2000];
      mkRow 2 "C" [3000]; mkRow 3 "D" [4000]; mkRow 4 "E" [5000] ].

Definition crime_file : DataFrame :=
  mkDataFrame ["CRIME_INDEX"]
    [ mkRow 0 "A" [70]; mkRow 1 "B" [60]; mkRow 2 "C" [50]; mkRow 3 "D" [40] ].

Definition murder_file : DataFrame :=
  mkDataFrame ["RATE_PER_100000_N"]
    [ mkRow 0 "B" [5.5]; mkRow 1 "C" [3.25]; mkRow 2 "D" [1]; mkRow 3 "E" [0.5] ].

Definition quality_of_life_file : DataFrame :=
  mkDataFrame COMPARER_COLUMNS
    [ mkRow 0 "A" [90; 40; 55; 30; 12; 80; 60];
      mkRow 1 "B" [110; 60; 60; 45; 9; 65; 70];
      mkRow 2 "C" [150; 80; 70; 60; 8; 40; 75];
      mkRow 3 "D" [180; 100; 75; 80; 7; 25; 85] ].

Definition sample_read_csv (path : string) : string + DataFrame :=
  if String.eqb path "data/gdp_per_capita.csv" then inr gdp_file
  else if String.eqb path "data/quality_of_life.csv"
       then inr quality_of_life_file
  else if String.eqb path "data/crime_index.csv" then inr crime_file
  else if String.eqb path "data/murder_percent.csv" then inr murder_file
  else inl ("No such file: " ++ path)%string.

Definition sample_merge (left right : DataFrame) : string + DataFrame :=
  let joined :=
    flat_map
      (fun a =>
         map (fun b => (COUNTRY a, cells a ++ cells b))
             (filter (fun b => String.eqb (COUNTRY b) (COUNTRY a))
                     (rows right)))
      (rows left) in
  inr (mkDataFrame (columns left ++ columns right)
         (map (fun ir => mkRow (fst ir) (fst (snd ir)) (snd (snd ir)))
              (combine (seq 0 (List.length joined)) joined))).

(** The murder file with its indicator under another name. *)
Definition renamed_murder_file : DataFrame :=
  mkDataFrame ["MURDER_RATE"] (rows murder_file).

Definition sample_read_csv_renamed (path : string) : string + DataFrame :=
  if String.eqb path "data/murder_percent.csv" then inr renamed_murder_file
  else sample_read_csv path.

(** The files of the root-level driver, in the working directory. *)
Definition sample_read_csv_here (path : string) : string + DataFrame :=
  sample_read_csv ("data/" ++ path).

Definition sample_to_csv (path : string) : option string := None.

Definition joined (left right : DataFrame) : DataFrame :=
  match sample_merge left right with
  | inr table => table
  | inl _ => left
  end.

(** The statistics of the sample run, column by column. *)
Definition sample_stats (target_file : DataFrame) (target c : string)
  : Stats :=
  let source :=
    if String.eqb c "GDP" then joined gdp_file target_file
    else joined target_file quality_of_life_file in
  match Package.calculate_dependence_statistics any_corr any_ttest
          source c target with
  | Ok s => s
  | Raise _ => (nan, nan, nan, nan, nan, nan)
  end.

(** The four countries again, under other labels and names, with a third
    column and the two indicators in other positions. *)
Definition four_countries_rearranged : DataFrame :=
  mkDataFrame ["Z"; "Y"; "X"]
    [ mkRow 10 "E" [7; 10; 1]; mkRow 11 "F" [nan; 20; 2];
      mkRow 12 "G" [0; 30; 3]; mkRow 13 "H" [-1; 40; 4] ].

(* ================================================================== *)
(** * IEEE 754 facts used below

    Comparisons and the special values, read off the specification of the
    primitive operations ([FloatAxioms]). *)

Module Float64.

Lemma SFcompare_refl (a : spec_float) :
  a <> S754_nan -> SFcompare a a = Some Eq.
Proof.
  destruct a as [s | s | | s m e]; simpl; intros H.
  - reflexivity.
  - destruct s; reflexivity.
  - contradiction.
  - rewrite Z.compare_refl, Pos.compare_cont_refl.
    destruct s; reflexivity.
Qed.

Lemma SFcompare_antisym (a b : spec_float) (c : comparison) :
  SFcompare a b = Some c -> SFcompare b a = Some (CompOpp c).
Proof.
  destruct a as [sa | sa | | sa ma ea], b as [sb | sb | | sb mb eb];
    simpl; try discriminate;
    try (destruct sa; intros [= <-]; reflexivity);
    try (destruct sb; intros [= <-]; reflexivity);
    try (intros [= <-]; reflexivity).
  - destruct sa, sb; intros [= <-]; reflexivity.
  - rewrite (Z.compare_antisym ea eb).
    change (Pos.compare_cont Eq mb ma) with (Pos.compare mb ma).
    change (Pos.compare_cont Eq ma mb) with (Pos.compare ma mb).
    rewrite (Pos.compare_antisym ma mb).
    destruct sa, sb; intros [= <-]; try reflexivity;
      destruct (ea ?= eb)%Z; simpl; try reflexivity;
      destruct (ma ?= mb)%positive; reflexivity.
Qed.

Lemma SFcompare_total (a b : spec_float) :
  a <> S754_nan -> b <> S754_nan -> exists c, SFcompare a b = Some c.
Proof.
  destruct a as [sa | sa | | sa ma ea], b as [sb | sb | | sb mb eb];
    simpl; intros Ha Hb; try contradiction; eauto.
Qed.

Lemma isnan_true (x : float) : NumPy.isnan x = true <-> x = nan.
Proof.
  unfold NumPy.isnan. rewrite FloatAxioms.eqb_spec. unfold SFeqb. split.
  - intros H. apply Prim2SF_inj.
    destruct (Prim2SF x) eqn:E; try reflexivity;
      rewrite SFcompare_refl in H by discriminate; discriminate.
  - intros ->. reflexivity.
Qed.

Lemma isnan_false (x : float) :
  NumPy.isnan x = false <-> Prim2SF x <> S754_nan.
Proof.
  unfold NumPy.isnan. rewrite FloatAxioms.eqb_spec. unfold SFeqb. split.
  - intros H E. rewrite E in H. discriminate.
  - intros H. rewrite SFcompare_refl by assumption. reflexivity.
Qed.



(** [m < x] and [x <= m] never hold together ... *)
Lemma ltb_not_leb (m x : float) : (m <? x) = true -> (x <=? m) = false.
Proof.
  rewrite FloatAxioms.ltb_spec, FloatAxioms.leb_spec. unfold SFltb, SFleb.
  destruct (SFcompare (Prim2SF m) (Prim2SF x)) as [c | ] eqn:E;
    try discriminate.
  rewrite (SFcompare_antisym _ _ _ E).
  destruct c; simpl; intros; congruence.
Qed.

(** ... and one of them holds as soon as neither side is NaN. *)
Lemma ltb_or_leb (m x : float) :
  NumPy.isnan m = false -> NumPy.isnan x = false ->
  (m <? x) = true \/ (x <=? m) = true.
Proof.
  rewrite !isnan_false, FloatAxioms.ltb_spec, FloatAxioms.leb_spec. unfold SFltb, SFleb.
  intros Hm Hx.
  destruct (SFcompare_total _ _ Hm Hx) as [c E].
  rewrite E, (SFcompare_antisym _ _ _ E).
  destruct c; simpl; auto.
Qed.

(** A comparison with NaN on either side is false. *)
Lemma ltb_nan_l (x : float) : (nan <? x) = false.
Proof. rewrite FloatAxioms.ltb_spec. reflexivity. Qed.

Lemma leb_nan_r (x : float) : (x <=? nan) = false.
Proof.
  rewrite FloatAxioms.leb_spec. unfold SFleb.
  destruct (Prim2SF x); reflexivity.
Qed.

Lemma ltb_nan_r (x : float) : (x <? nan) = false.
Proof.
  rewrite FloatAxioms.ltb_spec. unfold SFltb.
  destruct (Prim2SF x); reflexivity.
Qed.

Lemma leb_nan_l (x : float) : (nan <=? x) = false.
Proof. rewrite FloatAxioms.leb_spec. reflexivity. Qed.




Lemma eqb_zero (z : float) :
  (z =? 0) = true -> exists s, Prim2SF z = S754_zero s.
Proof.
  rewrite FloatAxioms.eqb_spec. unfold SFeqb.
  change (Prim2SF 0) with (S754_zero false).
  destruct (Prim2SF z) as [s | s | | s m e]; simpl; try discriminate.
  - eauto.
  - destruct s; discriminate.
  - destruct s; discriminate.
Qed.

End Float64.

(* ================================================================== *)
(** * The model on small inputs *)

Example rint_halves_to_even :
  map NumPy.rint [0.5; 1.5; 2.5; -0.5; -2.5; 2.4; 2.6; nan; infinity]
  = [0; 2; 2; -0; -2; 2; 3; nan; infinity].
Proof. reflexivity. Qed.

Example round_three_decimals :
  map (fun x => NumPy.round x 3) [2.561725; 0.0005; 0.0015; 35; nan]
  = [2.562; 0; 0.002; 35; nan].
Proof. reflexivity. Qed.

Example median_odd : median [3; 1; 2] = 2.
Proof. reflexivity. Qed.

Example median_even : median [4; 1; 3; 2] = 2.5.
Proof. reflexivity. Qed.

Example median_skips_missing : median [nan; 7; nan] = 7.
Proof. reflexivity. Qed.

Example median_of_nothing : median [] = nan /\ median [nan; nan] = nan.
Proof. split; reflexivity. Qed.

Example median_of_the_infinities : median [neg_infinity; infinity] = nan.
Proof. reflexivity. Qed.

Example median_of_zero_is_positive :
  Prim2SF (median [-0]) = S754_zero false /\
  Prim2SF (median [-0; -0]) = S754_zero false.
Proof. split; reflexivity. Qed.

Example Series_median_kinds :
  Series_median [] = builtin_float nan /\
  Series_median [nan; nan] = numpy_float64 nan /\
  Series_median [3; 1; 2] = numpy_float64 2.
Proof. repeat split. Qed.

Example Series_corr_of_no_complete_row (corr : list float -> list float -> float) :
  Series_corr_scalar corr [1; nan] [nan; 2] = builtin_float nan /\
  Series_corr_scalar corr [1; nan] [3; 2] = numpy_float64 (corr [1; nan] [3; 2]).
Proof. split; reflexivity. Qed.

(** The value of a median does not depend on the kind of scalar. *)
Lemma value_Series_median (xs : list float) :
  value (Series_median xs) = median xs.
Proof. destruct xs; reflexivity. Qed.

Lemma insert_Permutation (x : float) (l : list float) :
  Permutation (insert x l) (x :: l).
Proof.
  induction l as [ | y l IH]; simpl; [reflexivity | ].
  destruct (x <=? y); [reflexivity | ].
  rewrite IH. apply perm_swap.
Qed.

(** Sorting rearranges the values and loses none. *)
Lemma sort_Permutation (l : list float) : Permutation (sort l) l.
Proof.
  induction l as [ | x l IH]; simpl; [constructor | ].
  rewrite insert_Permutation. now constructor.
Qed.

(* ================================================================== *)
(** * The result table under [df.loc[k] = row] *)

Section LocSet.

Implicit Types (t : ResultTable) (k : string) (row : ResultRow).

Lemma has_label_In t k : has_label k t = true <-> In k (index t).
Proof.
  unfold has_label, index. rewrite existsb_exists, in_map_iff. split.
  - intros [kr [Hin Hk]]. apply String.eqb_eq in Hk. eauto.
  - intros [kr [Hk Hin]]. exists kr. split; [assumption | ].
    now apply String.eqb_eq.
Qed.

Lemma index_loc_set t k row :
  index (loc_set t k row) =
  if has_label k t then index t else index t ++ [k].
Proof.
  unfold loc_set, index. destruct (has_label k t).
  - rewrite map_map. apply map_ext. intros [k' r]; simpl.
    destruct (String.eqb k' k); reflexivity.
  - now rewrite map_app.
Qed.

Lemma loc_get_absent t k : has_label k t = false -> loc_get t k = [].
Proof.
  unfold has_label, loc_get. induction t as [ | [k' r] t IH]; simpl.
  - reflexivity.
  - destruct (String.eqb k' k); simpl; [discriminate | exact IH].
Qed.

Lemma loc_get_app t1 t2 k : loc_get (t1 ++ t2) k = loc_get t1 k ++ loc_get t2 k.
Proof. unfold loc_get. now rewrite filter_app, map_app. Qed.

(** Reading back the label just written: as many copies of the new row as
    the table had rows under that label, and one if it had none. *)
Lemma loc_get_loc_set_same t k row :
  loc_get (loc_set t k row) k =
  repeat row (Nat.max 1 (List.length (loc_get t k))).
Proof.
  unfold loc_set. destruct (has_label k t) eqn:H.
  - assert (G : loc_get
              (map (fun kr => if String.eqb (fst kr) k
                              then (fst kr, row) else kr) t) k
            = repeat row (List.length (loc_get t k))).
    { clear H. unfold loc_get.
      induction t as [ | [k' r] t IH]; simpl; [reflexivity | ].
      destruct (String.eqb k' k) eqn:E; simpl; rewrite E; simpl;
        now rewrite IH. }
    rewrite G. f_equal.
    destruct (loc_get t k) eqn:E; simpl; [ | reflexivity].
    exfalso. clear G. revert H E. unfold has_label, loc_get.
    induction t as [ | [k' r] t IH]; simpl; [discriminate | ].
    destruct (String.eqb k' k); simpl; [discriminate | exact IH].
  - rewrite loc_get_app, (loc_get_absent _ _ H). simpl.
    unfold loc_get; simpl. rewrite String.eqb_refl. reflexivity.
Qed.

(** Every other label reads as before. *)
Lemma loc_get_loc_set_other t k k' row :
  k' <> k -> loc_get (loc_set t k row) k' = loc_get t k'.
Proof.
  intros Hne. unfold loc_set. destruct (has_label k t).
  - unfold loc_get. induction t as [ | [k0 r] t IH]; simpl; [reflexivity | ].
    destruct (String.eqb k0 k) eqn:E; simpl.
    + apply String.eqb_eq in E. subst k0.
      apply not_eq_sym in Hne.
      apply String.eqb_neq in Hne. rewrite Hne. exact IH.
    + destruct (String.eqb k0 k'); simpl; now rewrite IH.
  - rewrite loc_get_app. unfold loc_get at 2; simpl.
    apply not_eq_sym in Hne.
    apply String.eqb_neq in Hne. rewrite Hne. simpl. apply app_nil_r.
Qed.

Lemma loc_get_length_NoDup t k :
  NoDup (index t) -> (List.length (loc_get t k) <= 1)%nat.
Proof.
  unfold index, loc_get. induction t as [ | [k' r] t IH]; simpl; intros H.
  - lia.
  - inversion H as [ | ? ? Hnin Hnd]; subst.
    destruct (String.eqb k' k) eqn:E; simpl; [ | auto].
    apply String.eqb_eq in E. subst k'.
    assert (G : has_label k t = false).
    { destruct (has_label k t) eqn:G; [ | reflexivity].
      apply has_label_In in G. contradiction. }
    apply loc_get_absent in G. unfold loc_get in G. rewrite G. simpl. lia.
Qed.

Lemma NoDup_index_loc_set t k row :
  NoDup (index t) -> NoDup (index (loc_set t k row)).
Proof.
  intros H. rewrite index_loc_set. destruct (has_label k t) eqn:E.
  - assumption.
  - apply NoDup_app; [assumption | repeat constructor; intros [] | ].
    intros x Hx [<- | []].
    apply has_label_In in Hx. congruence.
Qed.

End LocSet.

(** C5. For every six statistics handed to [_save_stats_to_df], the row it
    writes under the comparer column holds
    [DIFFERENCE = |avg_comparable_high - avg_comparable_low|] and
    [DIFFERENCE_PERCENT = DIFFERENCE / avg_comparable * 100], next to the
    statistics themselves; it is what the label reads back as, in the
    package and in the root-level version alike. *)
Theorem save_stats_difference_fields :
  forall (t : ResultTable) (c : string) (a h l m r p : float),
    let written :=
      {| COMPARER_COLUMN := c;
         AVERAGE_COMPARER := a;
         AVERAGE_COMPARABLE_HIGHER := h;
         AVERAGE_COMPARABLE_LOWER := l;
         DIFFERENCE := abs (h - l);
         DIFFERENCE_PERCENT := abs (h - l) / m * 100;
         CORRELATION := r;
         P_VALUE := p |} in
    DIFFERENCE_PERCENT written = DIFFERENCE written / m * 100 /\
    Root._save_stats_to_df t c a h l m r p =
      Package._save_stats_to_df t c a h l m r p /\
    In written (loc_get (Package._save_stats_to_df t c a h l m r p) c) /\
    forall row,
      In row (loc_get (Package._save_stats_to_df t c a h l m r p) c) ->
      row = written.
Proof.
  intros t c a h l m r p written.
  unfold Package._save_stats_to_df. fold written.
  rewrite loc_get_loc_set_same.
  repeat split.
  - destruct (List.length (loc_get t c)); simpl; auto.
  - intros row Hin. now apply repeat_spec in Hin.
Qed.

(* ================================================================== *)
(** * The median split *)

Section MedianSplit.

Variables (df : DataFrame) (j : nat).

Lemma rows_root_high (m : float) :
  rows (Root.group_high_comparer df j m) =
  filter (fun r => m <? cell j r) (rows df).
Proof. reflexivity. Qed.

Lemma rows_root_low (m : float) :
  rows (Root.group_low_comparer df j m) =
  filter (fun r => cell j r <=? m) (rows df).
Proof. reflexivity. Qed.

Lemma rows_package_high (m : float) :
  rows (Package.group_high_comparer df j m) =
  map (round_row 3) (filter (fun r => m <? cell j r) (rows df)).
Proof. reflexivity. Qed.

Lemma rows_package_low (m : float) :
  rows (Package.group_low_comparer df j m) =
  map (round_row 3) (filter (fun r => cell j r <=? m) (rows df)).
Proof. reflexivity. Qed.


End MedianSplit.

Lemma filter_none {A : Type} (f : A -> bool) (l : list A) :
  (forall x, In x l -> f x = false) -> filter f l = [].
Proof.
  induction l as [ | x l IH]; simpl; intros H; [reflexivity | ].
  rewrite (H x (or_introl eq_refl)). apply IH. intros y Hy. apply H. now right.
Qed.

Lemma filter_two_way {A : Type} (v p q : A -> bool) (l : list A) :
  (forall x, In x l -> v x = p x || q x) ->
  (forall x, In x l -> p x && q x = false) ->
  Permutation (filter v l) (filter p l ++ filter q l).
Proof.
  induction l as [ | x l IH]; simpl; intros Hv Hpq; [constructor | ].
  assert (IH' : Permutation (filter v l) (filter p l ++ filter q l)).
  { apply IH; intros y Hy; [apply Hv | apply Hpq]; now right. }
  specialize (Hv x (or_introl eq_refl)).
  specialize (Hpq x (or_introl eq_refl)).
  rewrite Hv. destruct (p x), (q x); simpl in *; try discriminate.
  - now constructor.
  - now apply Permutation_cons_app.
  - assumption.
Qed.

Lemma split_covers_present (df : DataFrame) (j : nat) (m : float) :
  NumPy.isnan m = false ->
  Permutation (present df j)
    (filter (fun r => m <? cell j r) (rows df) ++
     filter (fun r => cell j r <=? m) (rows df)).
Proof.
  intros Hm. unfold present. apply filter_two_way; intros r _.
  - destruct (NumPy.isnan (cell j r)) eqn:E; simpl.
    + apply Float64.isnan_true in E. rewrite E.
      now rewrite Float64.ltb_nan_r, Float64.leb_nan_l.
    + destruct (Float64.ltb_or_leb m (cell j r) Hm E) as [-> | ->];
        [reflexivity | now rewrite orb_true_r].
  - destruct (m <? cell j r) eqn:E; [ | reflexivity].
    now rewrite (Float64.ltb_not_leb _ _ E).
Qed.

Lemma cell_round_row (k : nat) (r : Row) :
  cell k (round_row 3 r) = NumPy.round (cell k r) 3.
Proof.
  unfold cell, round_row; simpl.
  change nan with (NumPy.round nan 3) at 1.
  apply (map_nth (fun x => NumPy.round x 3)).
Qed.

(** C6 (as amended). The two groups never share a row.  When
    [median_comparer] is a number, they divide between them the rows that
    have a comparer value, so the values the two group medians are taken
    over are, together, the comparable-column values of those rows (each
    rounded to 3 decimals in the package version).  When [median_comparer]
    is NaN, both groups are empty.  [m] is the [median_comparer] the
    function computed, [j] and [k] the positions of the comparer and the
    comparable column. *)
Theorem groups_disjoint_and_cover_when_median_is_a_number :
  forall (df : DataFrame) (j k : nat) (m : float),
    let high_r := Root.group_high_comparer df j m in
    let low_r := Root.group_low_comparer df j m in
    let high_p := Package.group_high_comparer df j m in
    let low_p := Package.group_low_comparer df j m in
    (forall r, (m <? cell j r) && (cell j r <=? m) = false) /\
    if NumPy.isnan m
    then rows high_r = [] /\ rows low_r = [] /\
         rows high_p = [] /\ rows low_p = []
    else groups_cover df j high_r low_r /\
         Permutation (map (round_row 3) (present df j))
                     (rows high_p ++ rows low_p) /\
         Permutation (map (cell k) (present df j))
                     (series high_r k ++ series low_r k) /\
         Permutation (map (fun r => NumPy.round (cell k r) 3) (present df j))
                     (series high_p k ++ series low_p k).
Proof.
  intros df j k m high_r low_r high_p low_p.
  split.
  { intros r. destruct (m <? cell j r) eqn:E; [ | reflexivity].
    now rewrite (Float64.ltb_not_leb _ _ E). }
  subst high_r low_r high_p low_p. unfold groups_cover, series.
  rewrite rows_root_high, rows_root_low, rows_package_high, rows_package_low.
  destruct (NumPy.isnan m) eqn:Hm.
  - apply Float64.isnan_true in Hm. subst m.
    rewrite (filter_none (fun r => nan <? cell j r)),
            (filter_none (fun r => cell j r <=? nan)).
    + repeat split.
    + intros r _. apply Float64.leb_nan_r.
    + intros r _. apply Float64.ltb_nan_l.
  - pose proof (split_covers_present df j m Hm) as P.
    split; [exact P | ].
    split; [rewrite <- map_app; now apply Permutation_map | ].
    split; [rewrite <- map_app; now apply Permutation_map | ].
    rewrite <- !map_app, map_map.
    rewrite (map_ext (fun r => cell k (round_row 3 r))
                     (fun r => NumPy.round (cell k r) 3) (cell_round_row k)).
    now apply Permutation_map.
Qed.

(* ================================================================== *)
(** * The statistics, once both columns are found *)

Section Statistics.

Variable Series_corr : list float -> list float -> float.
Variable ttest_ind : list float -> list float -> float * float.
Variables (df : DataFrame) (c d : string) (j k : nat).
Hypothesis comparer_found : numeric_column df c = Ok j.
Hypothesis comparable_found : numeric_column df d = Ok k.

Lemma no_rows_series (t : DataFrame) (i : nat) :
  no_rows (series t i) = no_rows (rows t).
Proof. unfold series. destruct (rows t); reflexivity. Qed.

Lemma combine_series (t : DataFrame) (i i' : nat) :
  combine (series t i) (series t i') = pairs t i i'.
Proof.
  unfold series, pairs. induction (rows t) as [ | r l IH]; simpl;
    [reflexivity | now rewrite IH].
Qed.

(** [.median().round(3)]. *)
Lemma median_round (xs : list float) :
  scalar_round (Series_median xs) 3 =
  if no_rows xs then Raise (AttributeError "round")
  else Ok (NumPy.round (median xs) 3).
Proof. destruct xs; reflexivity. Qed.

Lemma package_statistics :
  Package.calculate_dependence_statistics Series_corr ttest_ind df c d =
  let m := NumPy.round (median (series df j)) 3 in
  let high := Package.group_high_comparer df j m in
  let low := Package.group_low_comparer df j m in
  if builtin_nan_statistic df j k
  then Raise (AttributeError "round")
  else
    Ok (m,
        NumPy.round (median (series df k)) 3,
        NumPy.round (median (series high k)) 3,
        NumPy.round (median (series low k)) 3,
        NumPy.round (Series_corr (series df j) (series df k)) 3,
        NumPy.round
          (snd (ttest_ind (dropna (series high k))
                          (dropna (series low k)))) 3).
Proof.
  unfold Package.calculate_dependence_statistics, Package.median_comparer,
    builtin_nan_statistic.
  rewrite comparer_found. cbn [bind]. cbv zeta.
  rewrite (median_round (series df j)), no_rows_series.
  destruct (no_rows (rows df)) eqn:E; cbn [bind orb]; [reflexivity | ].
  rewrite comparable_found. cbn [bind].
  rewrite (median_round (series df k)), no_rows_series, E. cbn [bind].
  rewrite (median_round (series (Package.group_high_comparer _ _ _) k)),
          no_rows_series.
  destruct (no_rows (rows (Package.group_high_comparer _ _ _)));
    cbn [bind orb]; [reflexivity | ].
  rewrite (median_round (series (Package.group_low_comparer _ _ _) k)),
          no_rows_series.
  destruct (no_rows (rows (Package.group_low_comparer _ _ _)));
    cbn [bind orb]; [reflexivity | ].
  unfold Series_corr_scalar. rewrite combine_series.
  destruct (existsb complete (pairs df j k)); cbn [bind negb scalar_round];
    [ | reflexivity].
  destruct (ttest_ind _ _). reflexivity.
Qed.

Lemma root_statistics :
  Root.calculate_dependence_statistics Series_corr ttest_ind df c d =
  let m := Root.median_comparer df j in
  let high := Root.group_high_comparer df j m in
  let low := Root.group_low_comparer df j m in
  Ok (m,
      median (series df k),
      median (series high k),
      median (series low k),
      Series_corr (series df j) (series df k),
      NumPy.round
        (snd (ttest_ind (dropna (series high k))
                        (dropna (series low k)))) 3).
Proof.
  unfold Root.calculate_dependence_statistics.
  rewrite comparer_found, comparable_found. simpl.
  destruct (ttest_ind _ _). reflexivity.
Qed.

End Statistics.

(** What a call does to the world, from what the statistics were. *)
Lemma package_by_column_ok Series_corr ttest_ind c d w a m h l r p :
  Package.calculate_dependence_statistics Series_corr ttest_ind (df w) c d
    = Ok (a, m, h, l, r, p) ->
  Package.calculate_dependence_by_column Series_corr ttest_ind c d w =
  (Ok tt,
   mkWorld (df w) (Package._save_stats_to_df (df_result w) c a h l m r p)
     (stdout w) (figures w)).
Proof.
  intros H. unfold Package.calculate_dependence_by_column. now rewrite H.
Qed.

Lemma root_by_column_ok Series_corr ttest_ind c d w a m h l r p :
  Root.calculate_dependence_statistics Series_corr ttest_ind (df w) c d
    = Ok (a, m, h, l, r, p) ->
  Root.calculate_dependence_by_column Series_corr ttest_ind c d w =
  (Ok tt,
   mkWorld (df w) (Root._save_stats_to_df (df_result w) c a h l m r p)
     (stdout w) (figures w)).
Proof.
  intros H. unfold Root.calculate_dependence_by_column. now rewrite H.
Qed.

Lemma loc_get_save_stats (t : ResultTable) (c : string) (a h l m r p : float) :
  exists n,
    loc_get (Package._save_stats_to_df t c a h l m r p) c =
    repeat {| COMPARER_COLUMN := c;
              AVERAGE_COMPARER := a;
              AVERAGE_COMPARABLE_HIGHER := h;
              AVERAGE_COMPARABLE_LOWER := l;
              DIFFERENCE := abs (h - l);
              DIFFERENCE_PERCENT := abs (h - l) / m * 100;
              CORRELATION := r;
              P_VALUE := p |} (S n).
Proof.
  unfold Package._save_stats_to_df. rewrite loc_get_loc_set_same.
  destruct (List.length (loc_get t c)) as [ | n];
    [exists O | exists n]; reflexivity.
Qed.

Lemma row_written_save_stats (t : ResultTable) (c : string)
    (a h l m r p : float) (P : ResultRow -> Prop) :
  P {| COMPARER_COLUMN := c;
       AVERAGE_COMPARER := a;
       AVERAGE_COMPARABLE_HIGHER := h;
       AVERAGE_COMPARABLE_LOWER := l;
       DIFFERENCE := abs (h - l);
       DIFFERENCE_PERCENT := abs (h - l) / m * 100;
       CORRELATION := r;
       P_VALUE := p |} ->
  row_written (Package._save_stats_to_df t c a h l m r p) c P.
Proof.
  intros HP. destruct (loc_get_save_stats t c a h l m r p) as [n E].
  unfold row_written. rewrite E. split.
  - discriminate.
  - intros row Hin. apply repeat_spec in Hin. now subst.
Qed.

(* ================================================================== *)
(** * The statistics are those of the two groups *)






(* ================================================================== *)
(** * An empty high group *)








(* ================================================================== *)
(** * A comparable column with median zero *)

Lemma div_zero_cases (x z : float) :
  (z =? 0) = true ->
  if NumPy.isnan x || (x =? 0)
  then x / z = nan
  else x / z = infinity \/ x / z = neg_infinity.
Proof.
  intros Hz. destruct (Float64.eqb_zero _ Hz) as [s E].
  unfold NumPy.isnan. rewrite !FloatAxioms.eqb_spec.
  rewrite <- (SF2Prim_Prim2SF (x / z)), div_spec, E.
  change (Prim2SF 0) with (S754_zero false).
  destruct (Prim2SF x) as [sx | sx | | sx mx ex]; simpl.
  - reflexivity.
  - destruct sx, s; simpl; auto.
  - reflexivity.
  - unfold SFeqb. simpl.
    rewrite Z.compare_refl, Pos.compare_cont_refl.
    destruct sx, s; simpl; auto.
Qed.

Lemma percent_of_zero_median (x z : float) :
  (z =? 0) = true ->
  if NumPy.isnan x || (x =? 0)
  then x / z * 100 = nan
  else x / z * 100 = infinity \/ x / z * 100 = neg_infinity.
Proof.
  intros Hz. pose proof (div_zero_cases x z Hz) as H.
  destruct (NumPy.isnan x || (x =? 0)).
  - rewrite H. reflexivity.
  - destruct H as [-> | ->]; [left | right]; reflexivity.
Qed.

(** C3 (as amended). When [median_comparable] equals 0 the accumulation
    step does not fail: the call completes and the row is written, its
    [DIFFERENCE_PERCENT] being the float64 quotient by zero, which is NaN
    when [DIFFERENCE] is zero or NaN and an infinity otherwise. *)
Theorem zero_median_comparable_row_written :
  forall (Series_corr : list float -> list float -> float)
         (ttest_ind : list float -> list float -> float * float)
         (w : World) (c d : string) (a m h l r p : float),
    (m =? 0) = true ->
    (Package.calculate_dependence_statistics Series_corr ttest_ind
       (df w) c d = Ok (a, m, h, l, r, p) ->
     exists w',
       Package.calculate_dependence_by_column Series_corr ttest_ind c d w
         = (Ok tt, w') /\
       row_written (df_result w') c percent_over_zero) /\
    (Root.calculate_dependence_statistics Series_corr ttest_ind
       (df w) c d = Ok (a, m, h, l, r, p) ->
     exists w',
       Root.calculate_dependence_by_column Series_corr ttest_ind c d w
         = (Ok tt, w') /\
       row_written (df_result w') c percent_over_zero).
Proof.
  intros Series_corr ttest_ind w c d a m h l r p Hm.
  split; intros S; eexists;
    (split; [first [ exact (package_by_column_ok _ _ _ _ _ _ _ _ _ _ _ S)
                   | exact (root_by_column_ok _ _ _ _ _ _ _ _ _ _ _ S) ] | ]);
    simpl; apply row_written_save_stats; unfold percent_over_zero; simpl;
    exact (percent_of_zero_median _ _ Hm).
Qed.

Lemma zero_median_comparable_row_written_witness :
  exists w',
    Package.calculate_dependence_by_column any_corr any_ttest "X" "Y"
      (world_of zero_median) = (Ok tt, w') /\
    row_written (df_result w') "X" percent_over_zero.
Proof.
  refine (proj1 (zero_median_comparable_row_written any_corr any_ttest
                   (world_of zero_median) "X" "Y" 2.5 0 5 (-5) nan nan _) _);
    reflexivity.
Defined.

(** The claim of a division error, at the table [zero_median]: the median
    of the comparable column is 0 and, whatever the library returns for the
    correlation and the test, the call completes, having written the row
    with an infinite [DIFFERENCE_PERCENT]. *)
Lemma zero_median_no_division_error :
  median (series zero_median 1) = 0 /\
  forall (Series_corr : list float -> list float -> float)
         (ttest_ind : list float -> list float -> float * float),
  exists r p,
    Package.calculate_dependence_statistics Series_corr ttest_ind
      zero_median "X" "Y" = Ok (2.5, 0, 5, -5, r, p) /\
    Package.calculate_dependence_by_column Series_corr ttest_ind "X" "Y"
      (world_of zero_median) =
    (Ok tt,
     mkWorld zero_median
       [("X", {| COMPARER_COLUMN := "X";
                 AVERAGE_COMPARER := 2.5;
                 AVERAGE_COMPARABLE_HIGHER := 5;
                 AVERAGE_COMPARABLE_LOWER := -5;
                 DIFFERENCE := 10;
                 DIFFERENCE_PERCENT := infinity;
                 CORRELATION := r;
                 P_VALUE := p |})]
       [] []).
Proof.
  split; [reflexivity | ]. intros Series_corr ttest_ind.
  pose proof (package_statistics Series_corr ttest_ind zero_median
                "X" "Y" 0 1 eq_refl eq_refl) as S.
  cbv zeta in S.
  set (r := NumPy.round (Series_corr _ _) 3) in S.
  set (p := NumPy.round (snd _) 3) in S.
  exists r, p. clearbody r p.
  assert (S' : Package.calculate_dependence_statistics Series_corr ttest_ind
                 zero_median "X" "Y" = Ok (2.5, 0, 5, -5, r, p)).
  { rewrite S. vm_compute. reflexivity. }
  split; [exact S' | ].
  rewrite (package_by_column_ok _ _ _ _ (world_of zero_median) _ _ _ _ _ _ S').
  vm_compute. reflexivity.
Qed.

(** The claim that the groups cover the rows with a comparer value, at the
    table [infinite_comparer]: no comparer value is missing, the median of
    [-inf] and [+inf] is NaN, and neither row is in a group. *)
Lemma infinite_comparer_rows_in_no_group :
  present infinite_comparer 0 = rows infinite_comparer /\
  Root.median_comparer infinite_comparer 0 = nan /\
  ~ groups_cover infinite_comparer 0
      (Root.group_high_comparer infinite_comparer 0
         (Root.median_comparer infinite_comparer 0))
      (Root.group_low_comparer infinite_comparer 0
         (Root.median_comparer infinite_comparer 0)).
Proof.
  split; [reflexivity | ]. split; [reflexivity | ].
  unfold groups_cover. intros P.
  apply Permutation_length in P. vm_compute in P. discriminate.
Qed.

(* ================================================================== *)
(** * Frame of a call *)

Lemma other_rows_loc_set (t : ResultTable) (c : string) (row : ResultRow) :
  other_rows c (loc_set t c row) = other_rows c t.
Proof.
  unfold other_rows, loc_set. destruct (has_label c t).
  - induction t as [ | [k r] t IH]; simpl; [reflexivity | ].
    destruct (String.eqb k c) eqn:E; simpl; rewrite E; simpl; now rewrite IH.
  - rewrite filter_app. simpl. rewrite String.eqb_refl. simpl.
    apply app_nil_r.
Qed.

(** C9. A call of [calculate_dependence_by_column] leaves the source table,
    the console and the figures as they were and, in the result table,
    every row not keyed by the comparer column, in place and unchanged; it
    returns nothing ([None]) or, when a column is not found or the package
    version rounds a built-in NaN, raises with the world untouched.  Both
    versions. *)
Theorem by_column_updates_only_comparer_row :
  forall (Series_corr : list float -> list float -> float)
         (ttest_ind : list float -> list float -> float * float)
         (c d : string) (w : World),
    only_comparer_row_updated c w
      (Package.calculate_dependence_by_column Series_corr ttest_ind c d w) /\
    only_comparer_row_updated c w
      (Root.calculate_dependence_by_column Series_corr ttest_ind c d w).
Proof.
  intros Series_corr ttest_ind c d w.
  unfold only_comparer_row_updated,
    Package.calculate_dependence_by_column,
    Root.calculate_dependence_by_column.
  split.
  - destruct (Package.calculate_dependence_statistics _ _ _ _ _)
      as [[[[[[a m] h] l] r] p] | e]; simpl.
    + repeat split; auto.
      * apply other_rows_loc_set.
      * intros k Hk. now apply loc_get_loc_set_other.
    + repeat split; eauto.
  - destruct (Root.calculate_dependence_statistics _ _ _ _ _)
      as [[[[[[a m] h] l] r] p] | e]; simpl.
    + repeat split; auto.
      * apply other_rows_loc_set.
      * intros k Hk. now apply loc_get_loc_set_other.
    + repeat split; eauto.
Qed.

(* ================================================================== *)
(** * Writing the same comparer column again *)

Lemma save_loc_set (t : ResultTable) (c : string) (s : Stats) :
  save t (c, s) = loc_set t c (row_of c s).
Proof. destruct s as [[[[[a m] h] l] r] p]. reflexivity. Qed.

Lemma NoDup_index_save_all (css : list (string * Stats)) (t : ResultTable) :
  NoDup (index t) -> NoDup (index (save_all t css)).
Proof.
  revert t. induction css as [ | [c s] css IH]; simpl; intros t H.
  - assumption.
  - apply IH. rewrite save_loc_set. now apply NoDup_index_loc_set.
Qed.

Lemma loc_get_save_all_other (css : list (string * Stats)) (t : ResultTable)
    (c : string) :
  ~ In c (map fst css) -> loc_get (save_all t css) c = loc_get t c.
Proof.
  revert t. induction css as [ | [c' s] css IH]; simpl; intros t H.
  - reflexivity.
  - rewrite IH by tauto. rewrite save_loc_set.
    apply loc_get_loc_set_other. intros ->. tauto.
Qed.

Lemma loc_get_save_NoDup (t : ResultTable) (c : string) (s : Stats) :
  NoDup (index t) -> loc_get (save t (c, s)) c = [row_of c s].
Proof.
  intros H. rewrite save_loc_set, loc_get_loc_set_same.
  pose proof (loc_get_length_NoDup t c H) as L.
  destruct (List.length (loc_get t c)) as [ | [ | n]];
    [reflexivity | reflexivity | lia].
Qed.

Lemma loc_get_length_count (t : ResultTable) (c : string) :
  List.length (loc_get t c) = count_occ string_dec (index t) c.
Proof.
  unfold loc_get, index. induction t as [ | [k r] t IH]; simpl.
  - reflexivity.
  - destruct (string_dec k c) as [-> | Hne].
    + rewrite String.eqb_refl. simpl. now rewrite IH.
    + apply String.eqb_neq in Hne. rewrite Hne. exact IH.
Qed.

(** Every table built from the empty one by the analyzer has unique
    labels. *)
Lemma built_tables_have_unique_labels (css : list (string * Stats)) :
  NoDup (index (save_all empty css)).
Proof. apply NoDup_index_save_all. constructor. Qed.

(** The two copies of [_save_stats_to_df] write the same row. *)
Lemma save_all_root_save_all (css : list (string * Stats)) (t : ResultTable) :
  save_all_root t css = save_all t css.
Proof.
  revert t. induction css as [ | [c [[[[[a m] h] l] r] p]] css IH];
    simpl; intros t; [reflexivity | apply IH].
Qed.

(** C8. In a result table whose labels are unique (as in one built from
    the empty table by [_save_stats_to_df] alone), writing the statistics
    of a comparer column is an upsert, with the [_save_stats_to_df] of the
    package and with the one of the root-level version: however many
    columns were processed before, this one included, and whatever other
    columns are processed after, the table has exactly one row labelled by
    the column, and it holds the values written last. *)
Theorem save_stats_is_upsert :
  forall (t : ResultTable) (earlier later : list (string * Stats))
         (c : string) (s : Stats),
    NoDup (index t) ->
    ~ In c (map fst later) ->
    let t' := save_all t (earlier ++ (c, s) :: later) in
    let t'' := save_all_root t (earlier ++ (c, s) :: later) in
    (loc_get t' c = [row_of c s] /\
     count_occ string_dec (index t') c = 1%nat /\
     NoDup (index t')) /\
    (loc_get t'' c = [row_of c s] /\
     count_occ string_dec (index t'') c = 1%nat /\
     NoDup (index t'')).
Proof.
  intros t earlier later c s Hnd Hlater t' t''. subst t' t''.
  rewrite (save_all_root_save_all (earlier ++ (c, s) :: later) t).
  assert (G : loc_get (save_all t (earlier ++ (c, s) :: later)) c
              = [row_of c s]).
  { unfold save_all. rewrite fold_left_app. simpl.
    fold (save_all (save (fold_left save earlier t) (c, s)) later).
    rewrite loc_get_save_all_other by assumption.
    apply loc_get_save_NoDup.
    now apply (NoDup_index_save_all earlier). }
  assert (U : loc_get (save_all t (earlier ++ (c, s) :: later)) c
                = [row_of c s] /\
              count_occ string_dec
                (index (save_all t (earlier ++ (c, s) :: later))) c = 1%nat /\
              NoDup (index (save_all t (earlier ++ (c, s) :: later)))).
  { split; [exact G | ]. split.
    - rewrite <- loc_get_length_count, G. reflexivity.
    - now apply NoDup_index_save_all. }
  split; exact U.
Qed.

Lemma save_stats_is_upsert_witness :
  loc_get
    (save_all empty
       [("X", (1, 2, 3, 4, 5, 6)); ("Z", (0, 0, 0, 0, 0, 0));
        ("X", (2.5, 25, 35, 15, 1, 0.106)); ("W", (7, 7, 7, 7, 7, 7))])
    "X"
  = [row_of "X" (2.5, 25, 35, 15, 1, 0.106)] /\
  loc_get
    (save_all_root empty
       [("X", (1, 2, 3, 4, 5, 6)); ("Z", (0, 0, 0, 0, 0, 0));
        ("X", (2.5, 25, 35, 15, 1, 0.106)); ("W", (7, 7, 7, 7, 7, 7))])
    "X"
  = [row_of "X" (2.5, 25, 35, 15, 1, 0.106)].
Proof.
  assert (U := save_stats_is_upsert empty
                 [("X", (1, 2, 3, 4, 5, 6)); ("Z", (0, 0, 0, 0, 0, 0))]
                 [("W", (7, 7, 7, 7, 7, 7))]
                 "X" (2.5, 25, 35, 15, 1, 0.106)).
  refine ((fun V => conj (proj1 (proj1 V)) (proj1 (proj2 V))) (U _ _)).
  - constructor.
  - simpl. intros [H | []]. discriminate.
Defined.

(* ================================================================== *)
(** * Rounding, and the two versions side by side *)

Ltac float_discriminate H :=
  apply (f_equal Prim2SF) in H; vm_compute in H; discriminate H.

(** C10. The two versions of [calculate_dependence_statistics] are not
    extensionally equal: on the table [fine_grained], whatever the library
    returns for the correlation and the test, both return a tuple and the
    tuples differ.  The package version returns the rounded medians 2.562
    and 0.051 where the root-level one returns 2.561725 and 0.0507; and the
    package's low-group median, taken over the rounded group, is 0 where
    the root-level one is 0.0009, which rounding at the end would turn into
    0.001. *)
Theorem versions_differ_on_fine_grained :
  forall (Series_corr : list float -> list float -> float)
         (ttest_ind : list float -> list float -> float * float),
    (exists r p,
        Package.calculate_dependence_statistics Series_corr ttest_ind
          fine_grained "X" "Y" = Ok (2.562, 0.051, 0.2, 0, r, p)) /\
    (exists r p,
        Root.calculate_dependence_statistics Series_corr ttest_ind
          fine_grained "X" "Y" = Ok (2.561725, 0.0507, 0.2, 0.0009, r, p)) /\
    Package.calculate_dependence_statistics Series_corr ttest_ind
      fine_grained "X" "Y" <>
    Root.calculate_dependence_statistics Series_corr ttest_ind
      fine_grained "X" "Y" /\
    NumPy.round 0.0009 3 = 0.001.
Proof.
  intros Series_corr ttest_ind.
  assert (P : exists r p,
             Package.calculate_dependence_statistics Series_corr ttest_ind
               fine_grained "X" "Y" = Ok (2.562, 0.051, 0.2, 0, r, p)).
  { rewrite (package_statistics Series_corr ttest_ind fine_grained
               "X" "Y" 0 1 eq_refl eq_refl).
    cbv zeta.
    set (r := NumPy.round (Series_corr _ _) 3).
    set (p := NumPy.round (snd _) 3).
    exists r, p. clearbody r p. vm_compute. reflexivity. }
  assert (R : exists r p,
             Root.calculate_dependence_statistics Series_corr ttest_ind
               fine_grained "X" "Y"
             = Ok (2.561725, 0.0507, 0.2, 0.0009, r, p)).
  { rewrite (root_statistics Series_corr ttest_ind fine_grained
               "X" "Y" 0 1 eq_refl eq_refl).
    cbv zeta.
    set (r := Series_corr _ _).
    set (p := NumPy.round (snd _) 3).
    exists r, p. clearbody r p. vm_compute. reflexivity. }
  split; [exact P | ]. split; [exact R | ]. split; [ | reflexivity].
  destruct P as [rp [pp ->]]. destruct R as [rr [pr ->]].
  intros H.
  apply (f_equal (fun s : result Stats =>
                    match s with
                    | Ok (a, _, _, _, _, _) => a
                    | Raise _ => nan
                    end)) in H.
  float_discriminate H.
Qed.

(** The claim that every value but [DIFFERENCE_PERCENT] is rounded to 3
    decimals, at two tables, whatever the library returns: the root-level
    version returns the comparer median 2.561725 of [fine_grained], and the
    package version writes 0.3 - 0.1 = 0.19999999999999998 as the
    [DIFFERENCE] of [tenths]. *)
Lemma unrounded_median_and_difference :
  (unchanged_by_rounding 2.561725 = false /\
   unchanged_by_rounding 0.19999999999999998 = false) /\
  forall (Series_corr : list float -> list float -> float)
         (ttest_ind : list float -> list float -> float * float),
    (exists r p,
        Root.calculate_dependence_statistics Series_corr ttest_ind
          fine_grained "X" "Y" = Ok (2.561725, 0.0507, 0.2, 0.0009, r, p)) /\
    (exists r p,
        df_result
          (snd (Package.calculate_dependence_by_column Series_corr ttest_ind
                  "X" "Y" (world_of tenths))) =
        [("X", {| COMPARER_COLUMN := "X";
                  AVERAGE_COMPARER := 1.5;
                  AVERAGE_COMPARABLE_HIGHER := 0.3;
                  AVERAGE_COMPARABLE_LOWER := 0.1;
                  DIFFERENCE := 0.19999999999999998;
                  DIFFERENCE_PERCENT := 99.999999999999986;
                  CORRELATION := r;
                  P_VALUE := p |})]).
Proof.
  split; [split; reflexivity | ]. intros Series_corr ttest_ind. split.
  - rewrite (root_statistics Series_corr ttest_ind fine_grained
               "X" "Y" 0 1 eq_refl eq_refl).
    cbv zeta.
    set (r := Series_corr _ _).
    set (p := NumPy.round (snd _) 3).
    exists r, p. clearbody r p. vm_compute. reflexivity.
  - pose proof (package_statistics Series_corr ttest_ind tenths
                  "X" "Y" 0 1 eq_refl eq_refl) as S.
    cbv zeta in S.
    set (r := NumPy.round (Series_corr _ _) 3) in S.
    set (p := NumPy.round (snd _) 3) in S.
    exists r, p. clearbody r p.
    assert (S' : Package.calculate_dependence_statistics Series_corr ttest_ind
                   tenths "X" "Y" = Ok (1.5, 0.2, 0.3, 0.1, r, p)).
    { rewrite S. vm_compute. reflexivity. }
    rewrite (package_by_column_ok _ _ _ _ (world_of tenths) _ _ _ _ _ _ S').
    vm_compute. reflexivity.
Qed.

(** C2 (as amended). Whenever the package version returns, each of the six
    statistics returned is the result of a rounding to 3 decimals,
    [median_comparer], [median_comparable] and [correlation] being the
    root-level version's values rounded; it returns whenever none of the
    statistics it rounds is the built-in NaN.  In the root-level version
    only [p_value] is rounded.  In the row written from the package's
    statistics, they are stored as returned, and [DIFFERENCE] and
    [DIFFERENCE_PERCENT] are both computed from them and neither is rounded
    again. *)
Theorem statistics_rounded_by_package_version :
  forall (Series_corr : list float -> list float -> float)
         (ttest_ind : list float -> list float -> float * float)
         (w : World) (c d : string) (j k : nat),
    numeric_column (df w) c = Ok j ->
    numeric_column (df w) d = Ok k ->
    let a := median (series (df w) j) in
    let m := median (series (df w) k) in
    let r := Series_corr (series (df w) j) (series (df w) k) in
    (exists h l p,
        Root.calculate_dependence_statistics Series_corr ttest_ind (df w) c d
        = Ok (a, m, h, l, r, NumPy.round p 3)) /\
    (builtin_nan_statistic (df w) j k = false <->
     exists s,
       Package.calculate_dependence_statistics Series_corr ttest_ind
         (df w) c d = Ok s) /\
    (forall s,
        Package.calculate_dependence_statistics Series_corr ttest_ind
          (df w) c d = Ok s ->
        exists h' l' p',
          s = (NumPy.round a 3, NumPy.round m 3, NumPy.round h' 3,
               NumPy.round l' 3, NumPy.round r 3, NumPy.round p' 3) /\
          exists w',
            Package.calculate_dependence_by_column Series_corr ttest_ind c d w
              = (Ok tt, w') /\
            row_written (df_result w') c
              (fun row =>
                 AVERAGE_COMPARER row = NumPy.round a 3 /\
                 AVERAGE_COMPARABLE_HIGHER row = NumPy.round h' 3 /\
                 AVERAGE_COMPARABLE_LOWER row = NumPy.round l' 3 /\
                 CORRELATION row = NumPy.round r 3 /\
                 P_VALUE row = NumPy.round p' 3 /\
                 DIFFERENCE row = abs (NumPy.round h' 3 - NumPy.round l' 3) /\
                 DIFFERENCE_PERCENT row =
                   abs (NumPy.round h' 3 - NumPy.round l' 3)
                   / NumPy.round m 3 * 100)).
Proof.
  intros Series_corr ttest_ind w c d j k Hj Hk a m r.
  pose proof (package_statistics Series_corr ttest_ind _ _ _ _ _ Hj Hk) as P.
  pose proof (root_statistics Series_corr ttest_ind _ _ _ _ _ Hj Hk) as R.
  cbv zeta in P, R. unfold Root.median_comparer in R at 1.
  split; [do 3 eexists; exact R | ].
  destruct (builtin_nan_statistic (df w) j k).
  - split.
    + split; [discriminate | ]. intros [s E]. rewrite E in P. discriminate.
    + intros s E. rewrite E in P. discriminate.
  - split.
    + split; [eauto | reflexivity].
    + intros s E. rewrite P in E.
      apply (f_equal (fun x : result Stats =>
                        match x with Ok y => y | Raise _ => s end)) in E.
      simpl in E. subst s.
      do 3 eexists. split; [reflexivity | ].
      eexists.
      split; [exact (package_by_column_ok _ _ _ _ _ _ _ _ _ _ _ P) | ].
      simpl. apply row_written_save_stats. simpl. repeat split.
Qed.

Lemma statistics_rounded_by_package_version_witness :
  (exists h l p,
      Root.calculate_dependence_statistics any_corr any_ttest
        fine_grained "X" "Y"
      = Ok (2.561725, 0.0507, h, l, nan, NumPy.round p 3)) /\
  exists h' l' p',
    (2.562, 0.051, 0.2, 0, nan, nan) =
    (2.562, 0.051, NumPy.round h' 3, NumPy.round l' 3, nan,
     NumPy.round p' 3) /\
    exists w',
      Package.calculate_dependence_by_column any_corr any_ttest "X" "Y"
        (world_of fine_grained) = (Ok tt, w') /\
      row_written (df_result w') "X"
        (fun row =>
           AVERAGE_COMPARER row = 2.562 /\
           AVERAGE_COMPARABLE_HIGHER row = NumPy.round h' 3 /\
           AVERAGE_COMPARABLE_LOWER row = NumPy.round l' 3 /\
           CORRELATION row = nan /\
           P_VALUE row = NumPy.round p' 3 /\
           DIFFERENCE row = abs (NumPy.round h' 3 - NumPy.round l' 3) /\
           DIFFERENCE_PERCENT row =
             abs (NumPy.round h' 3 - NumPy.round l' 3) / 0.051 * 100).
Proof.
  destruct (statistics_rounded_by_package_version any_corr any_ttest
              (world_of fine_grained) "X" "Y" 0 1 eq_refl eq_refl)
    as [R [_ P]].
  split; [exact R | ].
  exact (P (2.562, 0.051, 0.2, 0, nan, nan) eq_refl).
Defined.

(* ================================================================== *)
(** * The two-sample test and the scenario of the specification *)

Lemma dropna_In (xs : list float) (x : float) :
  In x (dropna xs) <-> In x xs /\ x <> nan.
Proof.
  unfold dropna. rewrite filter_In. split; intros [Hin H]; split; auto.
  - intros E. apply Float64.isnan_true in E. rewrite E in H. discriminate.
  - destruct (NumPy.isnan x) eqn:E; [ | reflexivity].
    apply Float64.isnan_true in E. contradiction.
Qed.

Lemma package_median_comparer_returned (df : DataFrame) (j k : nat) :
  builtin_nan_statistic df j k = false ->
  Package.median_comparer df j = Ok (NumPy.round (median (series df j)) 3).
Proof.
  unfold builtin_nan_statistic, Package.median_comparer. cbv zeta.
  rewrite median_round, no_rows_series.
  destruct (no_rows (rows df)); [discriminate | reflexivity].
Qed.

(** The two-sample test of [calculate_dependence_statistics], in both
    versions: missing values are dropped from the comparable values of the
    high group and of the low group separately, [ttest_ind] is called on
    the two remaining samples with its default arguments, and of its result
    only the p-value is kept, rounded to 3 decimals.  The root-level
    version returns it for every table with the two columns, the package
    version whenever it returns. *)
Theorem p_value_from_ttest_on_dropna_groups :
  forall (Series_corr : list float -> list float -> float)
         (ttest_ind : list float -> list float -> float * float)
         (df : DataFrame) (c d : string) (j k : nat),
    numeric_column df c = Ok j ->
    numeric_column df d = Ok k ->
    let mr := Root.median_comparer df j in
    (forall s,
        Package.calculate_dependence_statistics Series_corr ttest_ind df c d
          = Ok s ->
        exists mp,
          Package.median_comparer df j = Ok mp /\
          exists a m h l r,
            s = (a, m, h, l, r,
                 NumPy.round
                   (snd (ttest_ind
                           (dropna
                              (series (Package.group_high_comparer df j mp) k))
                           (dropna
                              (series (Package.group_low_comparer df j mp) k))))
                   3)) /\
    (exists a m h l r,
        Root.calculate_dependence_statistics Series_corr ttest_ind df c d
        = Ok (a, m, h, l, r,
              NumPy.round
                (snd (ttest_ind
                        (dropna
                           (series (Root.group_high_comparer df j mr) k))
                        (dropna
                           (series (Root.group_low_comparer df j mr) k))))
                3)) /\
    (forall xs x, In x (dropna xs) <-> In x xs /\ x <> nan).
Proof.
  intros Series_corr ttest_ind df c d j k Hj Hk mr.
  split; [ | split; [ | apply dropna_In]].
  - intros s E.
    rewrite (package_statistics Series_corr ttest_ind _ _ _ _ _ Hj Hk) in E.
    cbv zeta in E.
    destruct (builtin_nan_statistic df j k) eqn:B; [discriminate | ].
    eexists. split; [exact (package_median_comparer_returned _ _ _ B) | ].
    apply (f_equal (fun x : result Stats =>
                      match x with Ok y => y | Raise _ => s end)) in E.
    simpl in E. subst s. do 5 eexists. reflexivity.
  - rewrite (root_statistics Series_corr ttest_ind _ _ _ _ _ Hj Hk).
    cbv zeta. eauto 6.
Qed.

Lemma p_value_from_ttest_on_dropna_groups_witness :
  exists mp,
    Package.median_comparer fine_grained 0 = Ok mp /\
    exists a m h l r,
      (2.562, 0.051, 0.2, 0, nan, nan) =
      (a, m, h, l, r,
       NumPy.round
         (snd (any_ttest
                 (dropna
                    (series (Package.group_high_comparer fine_grained 0 mp) 1))
                 (dropna
                    (series (Package.group_low_comparer fine_grained 0 mp) 1))))
         3).
Proof.
  exact (proj1 (p_value_from_ttest_on_dropna_groups any_corr any_ttest
                  fine_grained "X" "Y" 0 1 eq_refl eq_refl)
           (2.562, 0.051, 0.2, 0, nan, nan) eq_refl).
Defined.

(** The scenario of the specification: countries A..D with comparer values
    1, 2, 3, 4 and comparable values 10, 20, 30, 40.  Both versions return
    the medians 2.5 and 25 and the group medians 35 and 15, and the row
    written has [DIFFERENCE] 20 and [DIFFERENCE_PERCENT] 80. *)
Theorem four_countries_scenario :
  forall (Series_corr : list float -> list float -> float)
         (ttest_ind : list float -> list float -> float * float),
    (exists r p,
        Package.calculate_dependence_statistics Series_corr ttest_ind
          four_countries "X" "Y" = Ok (2.5, 25, 35, 15, r, p)) /\
    (exists r p,
        Root.calculate_dependence_statistics Series_corr ttest_ind
          four_countries "X" "Y" = Ok (2.5, 25, 35, 15, r, p)) /\
    (forall r p,
        DIFFERENCE (row_of "X" (2.5, 25, 35, 15, r, p)) = 20 /\
        DIFFERENCE_PERCENT (row_of "X" (2.5, 25, 35, 15, r, p)) = 80).
Proof.
  intros Series_corr ttest_ind. split; [ | split].
  - rewrite (package_statistics Series_corr ttest_ind four_countries
               "X" "Y" 0 1 eq_refl eq_refl).
    cbv zeta.
    set (r := NumPy.round (Series_corr _ _) 3).
    set (p := NumPy.round (snd _) 3).
    exists r, p. clearbody r p. vm_compute. reflexivity.
  - rewrite (root_statistics Series_corr ttest_ind four_countries
               "X" "Y" 0 1 eq_refl eq_refl).
    cbv zeta.
    set (r := Series_corr _ _).
    set (p := NumPy.round (snd _) 3).
    exists r, p. clearbody r p. vm_compute. reflexivity.
  - intros r p. split; reflexivity.
Qed.

(* ================================================================== *)
(** * Rounding the built-in NaN *)

(** The package version calls [.round(3)] on the three medians and on the
    correlation.  On a table that has both columns, when one of them is
    the built-in NaN (the table has no row, a group has no row, or no row
    has both values) it raises [AttributeError], and
    [calculate_dependence_by_column] passes it on with nothing written;
    otherwise it returns.  The root-level version, which rounds the
    p-value only, returns on every such table and its row is written. *)
Theorem package_raises_on_builtin_nan :
  forall (Series_corr : list float -> list float -> float)
         (ttest_ind : list float -> list float -> float * float)
         (w : World) (c d : string) (j k : nat),
    numeric_column (df w) c = Ok j ->
    numeric_column (df w) d = Ok k ->
    (if builtin_nan_statistic (df w) j k
     then Package.calculate_dependence_statistics Series_corr ttest_ind
            (df w) c d = Raise (AttributeError "round") /\
          Package.calculate_dependence_by_column Series_corr ttest_ind c d w
            = (Raise (AttributeError "round"), w)
     else exists s w',
            Package.calculate_dependence_statistics Series_corr ttest_ind
              (df w) c d = Ok s /\
            Package.calculate_dependence_by_column Series_corr ttest_ind c d w
              = (Ok tt, w') /\
            loc_get (df_result w') c <> []) /\
    exists s w',
      Root.calculate_dependence_statistics Series_corr ttest_ind (df w) c d
        = Ok s /\
      Root.calculate_dependence_by_column Series_corr ttest_ind c d w
        = (Ok tt, w') /\
      loc_get (df_result w') c <> [].
Proof.
  intros Series_corr ttest_ind w c d j k Hj Hk.
  pose proof (package_statistics Series_corr ttest_ind _ _ _ _ _ Hj Hk) as P.
  pose proof (root_statistics Series_corr ttest_ind _ _ _ _ _ Hj Hk) as R.
  cbv zeta in P, R. split.
  - destruct (builtin_nan_statistic (df w) j k).
    + split; [exact P | ].
      unfold Package.calculate_dependence_by_column. now rewrite P.
    + do 2 eexists. split; [exact P | ].
      split; [exact (package_by_column_ok _ _ _ _ _ _ _ _ _ _ _ P) | ].
      simpl. apply (row_written_save_stats _ _ _ _ _ _ _ _ (fun _ => True) I).
  - do 2 eexists. split; [exact R | ].
    split; [exact (root_by_column_ok _ _ _ _ _ _ _ _ _ _ _ R) | ].
    simpl. apply (row_written_save_stats _ _ _ _ _ _ _ _ (fun _ => True) I).
Qed.

Lemma package_raises_on_builtin_nan_witness :
  (Package.calculate_dependence_by_column any_corr any_ttest "X" "Y"
     (world_of constant_comparer)
   = (Raise (AttributeError "round"), world_of constant_comparer) /\
   Package.calculate_dependence_by_column any_corr any_ttest "X" "Y"
     (world_of no_countries)
   = (Raise (AttributeError "round"), world_of no_countries)) /\
  Package.calculate_dependence_by_column any_corr any_ttest "X" "Y"
    (world_of no_complete_row)
  = (Raise (AttributeError "round"), world_of no_complete_row).
Proof.
  split; [split | ].
  - exact (proj2 (proj1 (package_raises_on_builtin_nan any_corr any_ttest
                           (world_of constant_comparer) "X" "Y" 0 1
                           eq_refl eq_refl))).
  - exact (proj2 (proj1 (package_raises_on_builtin_nan any_corr any_ttest
                           (world_of no_countries) "X" "Y" 0 1
                           eq_refl eq_refl))).
  - exact (proj2 (proj1 (package_raises_on_builtin_nan any_corr any_ttest
                           (world_of no_complete_row) "X" "Y" 0 1
                           eq_refl eq_refl))).
Defined.

(* ================================================================== *)
(** * Columns that are not found *)

Lemma index_of_None (c : string) (cols : list string) :
  index_of c cols = None <-> ~ In c cols.
Proof.
  induction cols as [ | c' cols IH]; simpl.
  - tauto.
  - destruct (String.eqb c c') eqn:E.
    + apply String.eqb_eq in E. subst. split; [discriminate | ].
      intros H. exfalso. apply H. now left.
    + apply String.eqb_neq in E.
      destruct (index_of c cols) as [i | ]; simpl.
      * split; [discriminate | ]. intros H.
        assert (G : ~ In c cols) by (intros G; apply H; now right).
        apply IH in G. discriminate.
      * split; [ | reflexivity]. intros _ [H | H]; [congruence | ].
        now apply (proj1 IH eq_refl).
Qed.

Lemma index_of_Some (c : string) (cols : list string) (j : nat) :
  index_of c cols = Some j -> nth_error cols j = Some c.
Proof.
  revert j. induction cols as [ | c' cols IH]; simpl; intros j.
  - discriminate.
  - destruct (String.eqb c c') eqn:E.
    + apply String.eqb_eq in E. subst. now intros [= <-].
    + destruct (index_of c cols) as [i | ]; simpl; [ | discriminate].
      intros [= <-]. simpl. now apply IH.
Qed.

Lemma numeric_column_found (df : DataFrame) (c : string) :
  c <> "COUNTRY" -> In c (columns df) ->
  exists j, numeric_column df c = Ok j /\ nth_error (columns df) j = Some c.
Proof.
  intros Hc Hin. unfold numeric_column.
  apply String.eqb_neq in Hc. rewrite Hc.
  destruct (index_of c (columns df)) as [j | ] eqn:E.
  - exists j. split; [reflexivity | now apply index_of_Some].
  - apply index_of_None in E. contradiction.
Qed.

Lemma numeric_column_missing (df : DataFrame) (c : string) :
  c <> "COUNTRY" -> ~ In c (columns df) ->
  numeric_column df c = Raise (KeyError c).
Proof.
  intros Hc Hin. unfold numeric_column.
  apply String.eqb_neq in Hc. rewrite Hc.
  apply index_of_None in Hin. now rewrite Hin.
Qed.

(** A column the table does not have.  Both versions of
    [calculate_dependence_statistics] raise [KeyError] for the comparer
    column when it is missing, whatever the comparable column is.  When
    only the comparable column is missing, the root-level version raises
    [KeyError] for it; so does the package version on a table with rows,
    while on a table without any row it has raised before looking the
    comparable column up, [AttributeError] from rounding the comparer
    median.  [calculate_dependence_by_column] passes the error on and
    leaves the result table as it was. *)
Theorem missing_column_raises_KeyError :
  forall (Series_corr : list float -> list float -> float)
         (ttest_ind : list float -> list float -> float * float)
         (w : World) (c d : string),
    c <> "COUNTRY" ->
    d <> "COUNTRY" ->
    let stats_p :=
      Package.calculate_dependence_statistics Series_corr ttest_ind
        (df w) in
    let stats_r :=
      Root.calculate_dependence_statistics Series_corr ttest_ind (df w) in
    let call_p :=
      Package.calculate_dependence_by_column Series_corr ttest_ind in
    let call_r :=
      Root.calculate_dependence_by_column Series_corr ttest_ind in
    (~ In c (columns (df w)) ->
     stats_p c d = Raise (KeyError c) /\ stats_r c d = Raise (KeyError c) /\
     call_p c d w = (Raise (KeyError c), w) /\
     call_r c d w = (Raise (KeyError c), w)) /\
    (In c (columns (df w)) -> ~ In d (columns (df w)) ->
     let e := if no_rows (rows (df w))
              then AttributeError "round" else KeyError d in
     stats_p c d = Raise e /\ stats_r c d = Raise (KeyError d) /\
     call_p c d w = (Raise e, w) /\
     call_r c d w = (Raise (KeyError d), w)).
Proof.
  intros Series_corr ttest_ind w c d Hc Hd stats_p stats_r call_p call_r.
  subst stats_p stats_r call_p call_r.
  unfold Package.calculate_dependence_by_column,
    Root.calculate_dependence_by_column,
    Package.calculate_dependence_statistics,
    Root.calculate_dependence_statistics.
  split.
  - intros Hin. rewrite (numeric_column_missing _ _ Hc Hin). simpl. auto.
  - intros Hin Hnd. cbv zeta.
    destruct (numeric_column_found _ _ Hc Hin) as [j [-> _]].
    rewrite (numeric_column_missing _ _ Hd Hnd). cbn [bind].
    unfold Package.median_comparer.
    rewrite median_round, no_rows_series.
    destruct (no_rows (rows (df w))); cbn [bind]; auto.
Qed.

Lemma missing_column_raises_KeyError_witness :
  Package.calculate_dependence_by_column any_corr any_ttest
    "GDP" "Y" (world_of four_countries)
  = (Raise (KeyError "GDP"), world_of four_countries) /\
  Package.calculate_dependence_by_column any_corr any_ttest
    "X" "CRIME_INDEX" (world_of four_countries)
  = (Raise (KeyError "CRIME_INDEX"), world_of four_countries).
Proof.
  split.
  - refine (proj1 (proj2 (proj2
      (proj1 (missing_column_raises_KeyError any_corr any_ttest
                (world_of four_countries) "GDP" "Y" _ _) _)))).
    + discriminate.
    + discriminate.
    + simpl. intros [H | [H | []]]; discriminate.
  - refine (proj1 (proj2 (proj2
      (proj2 (missing_column_raises_KeyError any_corr any_ttest
                (world_of four_countries) "X" "CRIME_INDEX" _ _) _ _)))).
    + discriminate.
    + discriminate.
    + simpl. auto.
    + simpl. intros [H | [H | []]]; discriminate.
Defined.

(* ================================================================== *)
(** * What the statistics read *)

Lemma series_of_pairs_fst (df : DataFrame) (j k : nat) :
  series df j = map fst (pairs df j k).
Proof. unfold series, pairs. rewrite map_map. reflexivity. Qed.

Lemma series_of_pairs_snd (df : DataFrame) (j k : nat) :
  series df k = map snd (pairs df j k).
Proof. unfold series, pairs. rewrite map_map. reflexivity. Qed.

Lemma series_selection (df : DataFrame) (j k : nat) (f : float -> bool) :
  series (getitem_mask df (fun r => f (cell j r))) k =
  map snd (filter (fun xy => f (fst xy)) (pairs df j k)).
Proof.
  unfold series, pairs, getitem_mask; simpl.
  induction (rows df) as [ | r l IH]; simpl; [reflexivity | ].
  destruct (f (cell j r)); simpl; now rewrite IH.
Qed.

Lemma series_above (df : DataFrame) (j k : nat) (m : float) :
  series (getitem_mask df (fun r => m <? cell j r)) k =
  map snd (filter (fun xy => m <? fst xy) (pairs df j k)).
Proof. exact (series_selection df j k (fun x => m <? x)). Qed.

Lemma series_not_above (df : DataFrame) (j k : nat) (m : float) :
  series (getitem_mask df (fun r => cell j r <=? m)) k =
  map snd (filter (fun xy => fst xy <=? m) (pairs df j k)).
Proof. exact (series_selection df j k (fun x => x <=? m)). Qed.

Lemma series_round (df : DataFrame) (k : nat) :
  series (Pandas.round df 3) k =
  map (fun x => NumPy.round x 3) (series df k).
Proof.
  unfold series, Pandas.round; simpl. rewrite !map_map.
  apply map_ext. intros r. apply cell_round_row.
Qed.

Lemma no_rows_map {A B : Type} (f : A -> B) (l : list A) :
  no_rows (map f l) = no_rows l.
Proof. destruct l; reflexivity. Qed.

Lemma no_rows_selection (df : DataFrame) (j k : nat) (f : float -> bool) :
  no_rows (filter (fun r => f (cell j r)) (rows df)) =
  no_rows (filter (fun xy => f (fst xy)) (pairs df j k)).
Proof.
  unfold pairs. induction (rows df) as [ | r l IH]; simpl; [reflexivity | ].
  destruct (f (cell j r)); [reflexivity | exact IH].
Qed.

Lemma builtin_nan_statistic_pairs (df : DataFrame) (j k : nat) :
  builtin_nan_statistic df j k =
  let ps := pairs df j k in
  let m := NumPy.round (median (map fst ps)) 3 in
  no_rows ps
  || no_rows (filter (fun xy => m <? fst xy) ps)
  || no_rows (filter (fun xy => fst xy <=? m) ps)
  || negb (existsb complete ps).
Proof.
  unfold builtin_nan_statistic. cbv zeta.
  rewrite rows_package_high, rows_package_low, !no_rows_map.
  rewrite (no_rows_selection df j k (fun x => _ <? x)),
          (no_rows_selection df j k (fun x => x <=? _)).
  rewrite <- (series_of_pairs_fst df j k).
  replace (no_rows (pairs df j k)) with (no_rows (rows df))
    by (symmetry; apply no_rows_map).
  reflexivity.
Qed.

(** The statistics of a pair of columns are a function of the values
    of those two columns, row by row: two tables that agree on them get
    the same six statistics from either version, whatever their other
    columns, index labels, countries or column positions are. *)
Theorem statistics_read_two_columns_only :
  forall (Series_corr : list float -> list float -> float)
         (ttest_ind : list float -> list float -> float * float)
         (df1 df2 : DataFrame) (c d : string) (j1 k1 j2 k2 : nat),
    numeric_column df1 c = Ok j1 ->
    numeric_column df1 d = Ok k1 ->
    numeric_column df2 c = Ok j2 ->
    numeric_column df2 d = Ok k2 ->
    pairs df1 j1 k1 = pairs df2 j2 k2 ->
    Package.calculate_dependence_statistics Series_corr ttest_ind df1 c d =
    Package.calculate_dependence_statistics Series_corr ttest_ind df2 c d /\
    Root.calculate_dependence_statistics Series_corr ttest_ind df1 c d =
    Root.calculate_dependence_statistics Series_corr ttest_ind df2 c d.
Proof.
  intros Series_corr ttest_ind df1 df2 c d j1 k1 j2 k2 Hj1 Hk1 Hj2 Hk2 E.
  rewrite (package_statistics _ _ _ _ _ _ _ Hj1 Hk1),
          (package_statistics _ _ _ _ _ _ _ Hj2 Hk2),
          (root_statistics _ _ _ _ _ _ _ Hj1 Hk1),
          (root_statistics _ _ _ _ _ _ _ Hj2 Hk2).
  cbv zeta.
  rewrite !builtin_nan_statistic_pairs.
  unfold Package.group_high_comparer,
    Package.group_low_comparer, Root.median_comparer,
    Root.group_high_comparer, Root.group_low_comparer.
  rewrite !series_round.
  rewrite !(series_above df1 j1 k1), !(series_above df2 j2 k2),
          !(series_not_above df1 j1 k1), !(series_not_above df2 j2 k2).
  rewrite (series_of_pairs_fst df1 j1 k1), (series_of_pairs_fst df2 j2 k2),
          (series_of_pairs_snd df1 j1 k1), (series_of_pairs_snd df2 j2 k2).
  rewrite E. split; reflexivity.
Qed.

Lemma statistics_read_two_columns_only_witness :
  Package.calculate_dependence_statistics any_corr any_ttest
    four_countries "X" "Y" =
  Package.calculate_dependence_statistics any_corr any_ttest
    four_countries_rearranged "X" "Y" /\
  Root.calculate_dependence_statistics any_corr any_ttest
    four_countries "X" "Y" =
  Root.calculate_dependence_statistics any_corr any_ttest
    four_countries_rearranged "X" "Y".
Proof.
  exact (statistics_read_two_columns_only any_corr any_ttest
           four_countries four_countries_rearranged "X" "Y" 0 1 2 1
           eq_refl eq_refl eq_refl eq_refl eq_refl).
Defined.

(* ================================================================== *)
(** * Calling again *)

Lemma has_label_loc_set (t : ResultTable) (k : string) (row : ResultRow) :
  has_label k (loc_set t k row) = true.
Proof.
  apply has_label_In. rewrite index_loc_set.
  destruct (has_label k t) eqn:E.
  - now apply has_label_In.
  - apply in_or_app. right. now left.
Qed.

(** Writing the same row under the same label a second time changes
    nothing. *)
Lemma loc_set_twice (t : ResultTable) (k : string) (row : ResultRow) :
  loc_set (loc_set t k row) k row = loc_set t k row.
Proof.
  unfold loc_set at 1. rewrite has_label_loc_set.
  unfold loc_set. destruct (has_label k t) eqn:E.
  - rewrite map_map. apply map_ext. intros [k' r]; simpl.
    destruct (String.eqb k' k) eqn:F; simpl; rewrite F; reflexivity.
  - rewrite map_app. simpl. rewrite String.eqb_refl. f_equal.
    rewrite <- (map_id t) at 2. apply map_ext_in. intros [k' r] Hin; simpl.
    destruct (String.eqb k' k) eqn:F; [ | reflexivity].
    apply String.eqb_eq in F. subst k'.
    assert (G : has_label k t = true).
    { apply has_label_In. unfold index. now apply (in_map fst) in Hin. }
    congruence.
Qed.

(** A second call of [calculate_dependence_by_column] with the same
    arguments gives the same outcome and leaves everything as the first
    call left it: the row is overwritten with itself, none is added.
    Both versions. *)
Theorem by_column_again_changes_nothing :
  forall (Series_corr : list float -> list float -> float)
         (ttest_ind : list float -> list float -> float * float)
         (c d : string) (w : World),
    let once_p :=
      Package.calculate_dependence_by_column Series_corr ttest_ind c d w in
    let once_r :=
      Root.calculate_dependence_by_column Series_corr ttest_ind c d w in
    Package.calculate_dependence_by_column Series_corr ttest_ind c d
      (snd once_p) = once_p /\
    Root.calculate_dependence_by_column Series_corr ttest_ind c d
      (snd once_r) = once_r.
Proof.
  intros Series_corr ttest_ind c d w once_p once_r. subst once_p once_r.
  unfold Package.calculate_dependence_by_column,
    Root.calculate_dependence_by_column.
  split.
  - destruct (Package.calculate_dependence_statistics _ _ (df w) c d)
      as [[[[[[a m] h] l] r] p] | e] eqn:S; simpl; rewrite S;
      [ | reflexivity].
    unfold Package._save_stats_to_df. simpl. now rewrite loc_set_twice.
  - destruct (Root.calculate_dependence_statistics _ _ (df w) c d)
      as [[[[[[a m] h] l] r] p] | e] eqn:S; simpl; rewrite S;
      [ | reflexivity].
    unfold Root._save_stats_to_df. simpl. now rewrite loc_set_twice.
Qed.

(** The labels of the result table after a call: those it had, in their
    order, followed by the comparer column if that was not among them;
    after a call that raised, those it had.  So a call never drops or
    moves a row, and the table grows by at most one.  Both versions. *)
Theorem by_column_keeps_labels_in_place :
  forall (Series_corr : list float -> list float -> float)
         (ttest_ind : list float -> list float -> float * float)
         (c d : string) (w : World),
    let labels_after (out : result unit * World) :=
      match fst out with
      | Ok _ => if has_label c (df_result w)
                then index (df_result w)
                else index (df_result w) ++ [c]
      | Raise _ => index (df_result w)
      end in
    let once_p :=
      Package.calculate_dependence_by_column Series_corr ttest_ind c d w in
    let once_r :=
      Root.calculate_dependence_by_column Series_corr ttest_ind c d w in
    index (df_result (snd once_p)) = labels_after once_p /\
    index (df_result (snd once_r)) = labels_after once_r.
Proof.
  intros Series_corr ttest_ind c d w labels_after once_p once_r.
  subst labels_after once_p once_r.
  unfold Package.calculate_dependence_by_column,
    Root.calculate_dependence_by_column.
  split.
  - destruct (Package.calculate_dependence_statistics _ _ (df w) c d)
      as [[[[[[a m] h] l] r] p] | e]; simpl; [ | reflexivity].
    apply index_loc_set.
  - destruct (Root.calculate_dependence_statistics _ _ (df w) c d)
      as [[[[[[a m] h] l] r] p] | e]; simpl; [ | reflexivity].
    apply index_loc_set.
Qed.

(* ================================================================== *)
(** * Column names for display *)

Lemma format_column_name_chars (s : string) :
  _format_column_name s = Python.map_chars format_char s.
Proof.
  unfold _format_column_name, Python.lower, Python.replace.
  induction s as [ | c s IH]; simpl; [reflexivity | now rewrite IH].
Qed.

Lemma format_char_facts (c : ascii) :
  Ascii.eqb (format_char c) "_" = false /\
  Python.is_upper (format_char c) = false /\
  format_char (format_char c) = format_char c /\
  ((nat_of_ascii c <? 128)%nat = true ->
   (nat_of_ascii (format_char c) <? 128)%nat = true) /\
  (Ascii.eqb c "_" = false -> Python.is_upper c = false ->
   format_char c = c).
Proof.
  destruct c as [[ | ] [ | ] [ | ] [ | ] [ | ] [ | ] [ | ] [ | ]];
    vm_compute; repeat split; intros; congruence.
Qed.

(** [_format_column_name] on an ASCII name: the result has the length of
    the name, holds no underscore and no upper-case letter, is ASCII, and
    formatting it again changes nothing; a name without underscores and
    upper-case letters is returned as it is. *)
Theorem format_column_name_normalises :
  forall (s : string),
    Python.isascii s = true ->
    let t := _format_column_name s in
    String.length t = String.length s /\
    Python.contains "_" t = false /\
    has_upper t = false /\
    Python.isascii t = true /\
    _format_column_name t = t /\
    (Python.contains "_" s = false -> has_upper s = false -> t = s).
Proof.
  intros s Hs t. subst t. rewrite !format_column_name_chars.
  induction s as [ | c s IH]; simpl in *.
  - repeat split; reflexivity.
  - apply andb_prop in Hs. destruct Hs as [Hc Hs].
    destruct (IH Hs) as [L [U [P [A [I N]]]]].
    destruct (format_char_facts c) as [F1 [F2 [F3 [F4 F5]]]].
    rewrite L, U, P, A, I, F1, F2, F3, (F4 Hc). simpl.
    repeat split; try reflexivity.
    intros Hu Hp.
    apply orb_false_elim in Hu. destruct Hu as [Hu1 Hu2].
    apply orb_false_elim in Hp. destruct Hp as [Hp1 Hp2].
    now rewrite (F5 Hu1 Hp1), (N Hu2 Hp2).
Qed.

Lemma format_column_name_normalises_witness :
  _format_column_name "QUALITY_OF_LIFE_INDEX" = "quality of life index" /\
  String.length (_format_column_name "QUALITY_OF_LIFE_INDEX") = 21%nat.
Proof.
  split; [reflexivity | ].
  exact (proj1 (format_column_name_normalises "QUALITY_OF_LIFE_INDEX"
                  eq_refl)).
Defined.

(* ================================================================== *)
(** * The drivers *)

Lemma Process_eta (p : Process) :
  mkProcess (console p) (shown p) (files p) = p.
Proof. now destruct p. Qed.

Section DriverSteps.

Variable Series_corr : list float -> list float -> float.
Variable ttest_ind : list float -> list float -> float * float.
Variables (source : DataFrame) (d : string).

Lemma package_step_ok (t : ResultTable) (c : string) (s : Stats)
    (p : Process) :
  Package.calculate_dependence_statistics Series_corr ttest_ind source c d
    = Ok s ->
  App.calculate_dependence_by_column Series_corr ttest_ind source t c d p
  = (Returned (save t (c, s)), p).
Proof.
  intros H. destruct s as [[[[[a m] h] l] r] q].
  unfold App.calculate_dependence_by_column, by_column.
  rewrite (package_by_column_ok _ _ _ _
             (mkWorld source t (console p) (shown p)) _ _ _ _ _ _ H).
  simpl. now rewrite Process_eta.
Qed.

Lemma package_step_raises (t : ResultTable) (c : string) (e : exn)
    (p : Process) :
  Package.calculate_dependence_statistics Series_corr ttest_ind source c d
    = Raise e ->
  App.calculate_dependence_by_column Series_corr ttest_ind source t c d p
  = (Raised (AnalyzerError e), p).
Proof.
  intros H.
  unfold App.calculate_dependence_by_column, by_column,
    Package.calculate_dependence_by_column.
  simpl. rewrite H. simpl. now rewrite Process_eta.
Qed.

Lemma root_step_ok (t : ResultTable) (c : string) (s : Stats) (p : Process) :
  Root.calculate_dependence_statistics Series_corr ttest_ind source c d
    = Ok s ->
  RootApp.calculate_dependence_by_column Series_corr ttest_ind source t c d p
  = (Returned (save t (c, s)), p).
Proof.
  intros H. destruct s as [[[[[a m] h] l] r] q].
  unfold RootApp.calculate_dependence_by_column, by_column.
  rewrite (root_by_column_ok _ _ _ _
             (mkWorld source t (console p) (shown p)) _ _ _ _ _ _ H).
  simpl. now rewrite Process_eta.
Qed.

Lemma root_step_raises (t : ResultTable) (c : string) (e : exn)
    (p : Process) :
  Root.calculate_dependence_statistics Series_corr ttest_ind source c d
    = Raise e ->
  RootApp.calculate_dependence_by_column Series_corr ttest_ind source t c d p
  = (Raised (AnalyzerError e), p).
Proof.
  intros H.
  unfold RootApp.calculate_dependence_by_column, by_column,
    Root.calculate_dependence_by_column.
  simpl. rewrite H. simpl. now rewrite Process_eta.
Qed.

(** A loop over columns whose statistics all come out. *)
Lemma package_loop_ok (stats : string -> Stats) (cs : list string)
    (t : ResultTable) (p : Process) :
  (forall c, In c cs ->
     Package.calculate_dependence_statistics Series_corr ttest_ind
       source c d = Ok (stats c)) ->
  for_each cs
    (fun t c =>
       App.calculate_dependence_by_column Series_corr ttest_ind
         source t c d) t p
  = (Returned (save_all t (map (fun c => (c, stats c)) cs)), p).
Proof.
  revert t. induction cs as [ | c cs IH]; intros t H; simpl.
  - reflexivity.
  - unfold then_. rewrite (package_step_ok t c (stats c) p).
    + apply IH. intros c' Hc'. apply H. now right.
    + apply H. now left.
Qed.

Lemma root_loop_ok (stats : string -> Stats) (cs : list string)
    (t : ResultTable) (p : Process) :
  (forall c, In c cs ->
     Root.calculate_dependence_statistics Series_corr ttest_ind
       source c d = Ok (stats c)) ->
  for_each cs
    (fun t c =>
       RootApp.calculate_dependence_by_column Series_corr ttest_ind
         source t c d) t p
  = (Returned (save_all t (map (fun c => (c, stats c)) cs)), p).
Proof.
  revert t. induction cs as [ | c cs IH]; intros t H; simpl.
  - reflexivity.
  - unfold then_. rewrite (root_step_ok t c (stats c) p).
    + apply IH. intros c' Hc'. apply H. now right.
    + apply H. now left.
Qed.

End DriverSteps.

(** Columns processed for the first time are appended, in order. *)
Lemma save_all_fresh (css : list (string * Stats)) (t : ResultTable) :
  NoDup (index t ++ map fst css) ->
  save_all t css = t ++ map (fun cs => (fst cs, row_of (fst cs) (snd cs))) css.
Proof.
  revert t. induction css as [ | [c s] css IH]; intros t H; simpl.
  - now rewrite app_nil_r.
  - rewrite save_loc_set.
    assert (Hc : has_label c t = false).
    { destruct (has_label c t) eqn:E; [ | reflexivity].
      apply has_label_In in E. apply NoDup_remove_2 in H.
      exfalso. apply H. apply in_or_app. now left. }
    unfold loc_set. rewrite Hc.
    rewrite IH.
    + now rewrite <- app_assoc.
    + unfold index. rewrite map_app. simpl. rewrite <- app_assoc. simpl.
      apply NoDup_Add with (a := c) (l := index t ++ map fst css).
      * apply Add_app.
      * split.
        -- now apply NoDup_remove_1 in H.
        -- now apply NoDup_remove_2 in H.
Qed.

Lemma processed_columns_distinct : NoDup ("GDP" :: COMPARER_COLUMNS).
Proof.
  repeat constructor; simpl; intros H;
    repeat (destruct H as [H | H]; [discriminate H | ]); exact H.
Qed.

Lemma table_of_save_all (stats : string -> Stats) :
  save_all Pandas.empty
    (map (fun c => (c, stats c)) ("GDP" :: COMPARER_COLUMNS))
  = table_of stats.
Proof.
  rewrite save_all_fresh.
  - unfold table_of. simpl. reflexivity.
  - simpl index. rewrite app_nil_l, map_map. simpl.
    exact processed_columns_distinct.
Qed.

Lemma then_returned {A B : Type} (m : Run A) (k : A -> Run B)
    (p p' : Process) (a : A) :
  m p = (Returned a, p') -> then_ m k p = k a p'.
Proof. intros H. unfold then_. now rewrite H. Qed.

Lemma then_raised {A B : Type} (m : Run A) (k : A -> Run B)
    (p p' : Process) (e : raised) :
  m p = (Raised e, p') -> then_ m k p = (Raised e, p').
Proof. intros H. unfold then_. now rewrite H. Qed.

Lemma library_returned {A : Type} (r : string + A) (a : A) (p : Process) :
  r = inr a -> library r p = (Returned a, p).
Proof. now intros ->. Qed.

Lemma library_raised {A : Type} (r : string + A) (message : string)
    (p : Process) :
  r = inl message -> library r p = (Raised (LibraryError message), p).
Proof. now intros ->. Qed.

Lemma to_csv_written (table : ResultTable) (path : string) (p : Process) :
  to_csv None table path p =
  (Returned tt, mkProcess (console p) (shown p) (files p ++ [(path, table)])).
Proof. reflexivity. Qed.

Lemma first_table_rows (stats : string -> Stats) :
  save_all (save Pandas.empty ("GDP", stats "GDP"))
    (map (fun c => (c, stats c)) COMPARER_COLUMNS)
  = table_of stats.
Proof. exact (table_of_save_all stats). Qed.

(** [App.run] of [src/app.py] when nothing raises: the four files are
    read and joined, every statistic comes out, both writes succeed.  Then
    the run prints nothing, shows no figure, and writes two files under
    [self._dir], [crime_dependencies.csv] first: each holds exactly eight
    rows, labelled [GDP] and then the seven [COMPARER_COLUMNS] in their
    order, the row of a column being the one [_save_stats_to_df] makes of
    that column's statistics. *)
Theorem app_run_writes_both_tables :
  forall (Series_corr : list float -> list float -> float)
         (ttest_ind : list float -> list float -> float * float)
         (read_csv : string -> string + DataFrame)
         (merge : DataFrame -> DataFrame -> string + DataFrame)
         (to_csv_raises : string -> option string)
         (_dir : string) (p : Process)
         (gdp_df quality_of_life_df crime_df murder_df : DataFrame)
         (gdp_and_crime_df crime_and_qol_df
            gdp_and_murder_df murder_and_qol_df : DataFrame)
         (crime_stats murder_stats : string -> Stats),
    read_csv (_dir ++ "gdp_per_capita.csv")%string = inr gdp_df ->
    read_csv (_dir ++ "quality_of_life.csv")%string = inr quality_of_life_df ->
    read_csv (_dir ++ "crime_index.csv")%string = inr crime_df ->
    read_csv (_dir ++ "murder_percent.csv")%string = inr murder_df ->
    merge gdp_df crime_df = inr gdp_and_crime_df ->
    merge crime_df quality_of_life_df = inr crime_and_qol_df ->
    merge gdp_df murder_df = inr gdp_and_murder_df ->
    merge murder_df quality_of_life_df = inr murder_and_qol_df ->
    Package.calculate_dependence_statistics Series_corr ttest_ind
      gdp_and_crime_df "GDP" "CRIME_INDEX" = Ok (crime_stats "GDP") ->
    (forall c, In c COMPARER_COLUMNS ->
       Package.calculate_dependence_statistics Series_corr ttest_ind
         crime_and_qol_df c "CRIME_INDEX" = Ok (crime_stats c)) ->
    Package.calculate_dependence_statistics Series_corr ttest_ind
      gdp_and_murder_df "GDP" "RATE_PER_100000_N" = Ok (murder_stats "GDP") ->
    (forall c, In c COMPARER_COLUMNS ->
       Package.calculate_dependence_statistics Series_corr ttest_ind
         murder_and_qol_df c "RATE_PER_100000_N" = Ok (murder_stats c)) ->
    to_csv_raises (_dir ++ "crime_dependencies.csv")%string = None ->
    to_csv_raises (_dir ++ "murder_dependencies.csv")%string = None ->
    App.run Series_corr ttest_ind read_csv merge to_csv_raises _dir p =
    (Returned tt,
     mkProcess (console p) (shown p)
       (files p ++
        [ ((_dir ++ "crime_dependencies.csv")%string, table_of crime_stats);
          ((_dir ++ "murder_dependencies.csv")%string,
           table_of murder_stats) ])).
Proof.
  intros Series_corr ttest_ind read_csv merge to_csv_raises _dir p
    gdp_df quality_of_life_df crime_df murder_df
    gdp_and_crime_df crime_and_qol_df gdp_and_murder_df murder_and_qol_df
    crime_stats murder_stats
    R1 R2 R3 R4 M1 M2 M3 M4 C1 C2 U1 U2 W1 W2.
  unfold App.run, App._read_df. rewrite R1, R2, R3, R4.
  rewrite (then_returned _ _ p p _ (library_returned _ _ p M1)).
  rewrite (then_returned _ _ p p _ (library_returned _ _ p M2)).
  rewrite (then_returned _ _ p p _ (library_returned _ _ p M3)).
  rewrite (then_returned _ _ p p _ (library_returned _ _ p M4)).
  cbv zeta. unfold App._create_df.
  rewrite (then_returned _ _ p p _ (package_step_ok _ _ _ _ _ _ _ p C1)).
  rewrite (then_returned _ _ p p _
             (package_loop_ok _ _ _ _ crime_stats _ _ p C2)).
  rewrite first_table_rows, W1.
  rewrite (then_returned _ _ p _ _ (to_csv_written _ _ p)).
  rewrite (then_returned _ _ _ _ _ (package_step_ok _ _ _ _ _ _ _ _ U1)).
  rewrite (then_returned _ _ _ _ _
             (package_loop_ok _ _ _ _ murder_stats _ _ _ U2)).
  rewrite first_table_rows, W2, to_csv_written. simpl.
  now rewrite <- app_assoc.
Qed.

Lemma app_run_writes_both_tables_witness :
  App.run any_corr any_ttest sample_read_csv sample_merge sample_to_csv
    "data/" (mkProcess [] [] []) =
  (Returned tt,
   mkProcess [] []
     [ ("data/crime_dependencies.csv",
        table_of (sample_stats crime_file "CRIME_INDEX"));
       ("data/murder_dependencies.csv",
        table_of (sample_stats murder_file "RATE_PER_100000_N")) ]).
Proof.
  refine (app_run_writes_both_tables any_corr any_ttest
            sample_read_csv sample_merge sample_to_csv "data/"
            (mkProcess [] [] [])
            gdp_file quality_of_life_file crime_file murder_file
            (joined gdp_file crime_file)
            (joined crime_file quality_of_life_file)
            (joined gdp_file murder_file)
            (joined murder_file quality_of_life_file)
            (sample_stats crime_file "CRIME_INDEX")
            (sample_stats murder_file "RATE_PER_100000_N")
            _ _ _ _ _ _ _ _ _ _ _ _ _ _);
    try reflexivity;
    intros c Hc; simpl in Hc;
    repeat (destruct Hc as [<- | Hc]; [vm_compute; reflexivity | ]);
    contradiction.
Defined.

(** A file that cannot be read.  When one of the four reads raises, [run]
    prints one line, the text [Error reading dataframes: ] followed by the
    message of the first read that raised (in the order gdp, quality of
    life, crime, murder), and returns: nothing is joined, computed or
    written.  This holds for [src/app.py] and for the driver in
    [src/dependence_analyzer.py], which reads [murder_percent.csv] too
    although it never uses it. *)
Theorem run_read_failure_prints_and_returns :
  forall (Series_corr : list float -> list float -> float)
         (ttest_ind : list float -> list float -> float * float)
         (read_csv : string -> string + DataFrame)
         (merge : DataFrame -> DataFrame -> string + DataFrame)
         (to_csv_raises : string -> option string)
         (_dir : string) (p : Process) (message : string),
    let reported :=
      (Returned tt,
       mkProcess
         (console p ++ [("Error reading dataframes: " ++ message)%string])
         (shown p) (files p)) in
    (first_failure
       (map read_csv
          [ (_dir ++ "gdp_per_capita.csv")%string;
            (_dir ++ "quality_of_life.csv")%string;
            (_dir ++ "crime_index.csv")%string;
            (_dir ++ "murder_percent.csv")%string ]) = Some message ->
     App.run Series_corr ttest_ind read_csv merge to_csv_raises _dir p
     = reported) /\
    (first_failure
       (map read_csv
          [ "gdp_per_capita.csv"; "quality_of_life.csv";
            "crime_index.csv"; "murder_percent.csv" ]) = Some message ->
     RootApp.run Series_corr ttest_ind read_csv merge to_csv_raises p
     = reported).
Proof.
  intros Series_corr ttest_ind read_csv merge to_csv_raises _dir p message
    reported.
  subst reported. split; intros H; simpl in H.
  - unfold App.run, App._read_df.
    destruct (read_csv (_dir ++ "gdp_per_capita.csv")%string);
      [injection H as <-; reflexivity | ].
    destruct (read_csv (_dir ++ "quality_of_life.csv")%string);
      [injection H as <-; reflexivity | ].
    destruct (read_csv (_dir ++ "crime_index.csv")%string);
      [injection H as <-; reflexivity | ].
    destruct (read_csv (_dir ++ "murder_percent.csv")%string);
      [injection H as <-; reflexivity | discriminate].
  - unfold RootApp.run, RootApp._read_df.
    destruct (read_csv "gdp_per_capita.csv");
      [injection H as <-; reflexivity | ].
    destruct (read_csv "quality_of_life.csv");
      [injection H as <-; reflexivity | ].
    destruct (read_csv "crime_index.csv");
      [injection H as <-; reflexivity | ].
    destruct (read_csv "murder_percent.csv");
      [injection H as <-; reflexivity | discriminate].
Qed.

Lemma run_read_failure_prints_and_returns_witness :
  App.run any_corr any_ttest sample_read_csv sample_merge sample_to_csv
    "nowhere/" (mkProcess [] [] []) =
  (Returned tt,
   mkProcess
     ["Error reading dataframes: No such file: nowhere/gdp_per_capita.csv"]
     [] []) /\
  RootApp.run any_corr any_ttest
    (fun path =>
       if String.eqb path "murder_percent.csv" then inl "No such file"
       else inr gdp_file)
    sample_merge sample_to_csv (mkProcess [] [] []) =
  (Returned tt,
   mkProcess ["Error reading dataframes: No such file"] [] []).
Proof.
  split.
  - exact (proj1 (run_read_failure_prints_and_returns any_corr any_ttest
                    sample_read_csv sample_merge sample_to_csv "nowhere/"
                    (mkProcess [] [] [])
                    "No such file: nowhere/gdp_per_capita.csv") eq_refl).
  - exact (proj2 (run_read_failure_prints_and_returns any_corr any_ttest
                    (fun path =>
                       if String.eqb path "murder_percent.csv"
                       then inl "No such file" else inr gdp_file)
                    sample_merge sample_to_csv ""
                    (mkProcess [] [] []) "No such file") eq_refl).
Defined.

(** A join that raises.  [App.run] of [src/app.py] does its four joins
    before anything else: when one of them raises, the run ends with that
    exception and has written nothing, also when it is a join for the
    murder rate that fails and the crime data are complete. *)
Theorem app_run_join_failure_writes_nothing :
  forall (Series_corr : list float -> list float -> float)
         (ttest_ind : list float -> list float -> float * float)
         (read_csv : string -> string + DataFrame)
         (merge : DataFrame -> DataFrame -> string + DataFrame)
         (to_csv_raises : string -> option string)
         (_dir : string) (p : Process)
         (gdp_df quality_of_life_df crime_df murder_df : DataFrame)
         (message : string),
    read_csv (_dir ++ "gdp_per_capita.csv")%string = inr gdp_df ->
    read_csv (_dir ++ "quality_of_life.csv")%string
      = inr quality_of_life_df ->
    read_csv (_dir ++ "crime_index.csv")%string = inr crime_df ->
    read_csv (_dir ++ "murder_percent.csv")%string = inr murder_df ->
    first_failure
      [ merge gdp_df crime_df; merge crime_df quality_of_life_df;
        merge gdp_df murder_df; merge murder_df quality_of_life_df ]
      = Some message ->
    App.run Series_corr ttest_ind read_csv merge to_csv_raises _dir p =
    (Raised (LibraryError message), p).
Proof.
  intros Series_corr ttest_ind read_csv merge to_csv_raises _dir p
    gdp_df quality_of_life_df crime_df murder_df message R1 R2 R3 R4 H.
  unfold App.run, App._read_df. rewrite R1, R2, R3, R4.
  simpl in H.
  destruct (merge gdp_df crime_df) as [m1 | t1].
  { injection H as <-. reflexivity. }
  rewrite (then_returned _ _ p p t1 eq_refl).
  destruct (merge crime_df quality_of_life_df) as [m2 | t2].
  { injection H as <-. reflexivity. }
  rewrite (then_returned _ _ p p t2 eq_refl).
  destruct (merge gdp_df murder_df) as [m3 | t3].
  { injection H as <-. reflexivity. }
  rewrite (then_returned _ _ p p t3 eq_refl).
  destruct (merge murder_df quality_of_life_df) as [m4 | t4].
  { injection H as <-. reflexivity. }
  discriminate.
Qed.

Lemma app_run_join_failure_writes_nothing_witness :
  App.run any_corr any_ttest sample_read_csv
    (fun left right =>
       if String.eqb (hd "" (columns right)) "RATE_PER_100000_N"
       then inl "COUNTRY" else sample_merge left right)
    sample_to_csv "data/" (mkProcess [] [] []) =
  (Raised (LibraryError "COUNTRY"), mkProcess [] [] []).
Proof.
  exact (app_run_join_failure_writes_nothing any_corr any_ttest
           sample_read_csv
           (fun left right =>
              if String.eqb (hd "" (columns right)) "RATE_PER_100000_N"
              then inl "COUNTRY" else sample_merge left right)
           sample_to_csv "data/" (mkProcess [] [] [])
           gdp_file quality_of_life_file crime_file murder_file "COUNTRY"
           eq_refl eq_refl eq_refl eq_refl eq_refl).
Defined.

(** A statistic that raises.  In [App.run] of [src/app.py], with the files
    read and joined: when the first crime statistic raises, the run ends
    with that exception and has written nothing; when the crime table is
    complete and written and the first murder statistic raises (the joined
    table lacks [RATE_PER_100000_N], say), the run ends with that
    exception and [crime_dependencies.csv] stays written, alone. *)
Theorem app_run_writes_crime_before_murder :
  forall (Series_corr : list float -> list float -> float)
         (ttest_ind : list float -> list float -> float * float)
         (read_csv : string -> string + DataFrame)
         (merge : DataFrame -> DataFrame -> string + DataFrame)
         (to_csv_raises : string -> option string)
         (_dir : string) (p : Process)
         (gdp_df quality_of_life_df crime_df murder_df : DataFrame)
         (gdp_and_crime_df crime_and_qol_df
            gdp_and_murder_df murder_and_qol_df : DataFrame)
         (crime_stats : string -> Stats) (e : exn),
    read_csv (_dir ++ "gdp_per_capita.csv")%string = inr gdp_df ->
    read_csv (_dir ++ "quality_of_life.csv")%string
      = inr quality_of_life_df ->
    read_csv (_dir ++ "crime_index.csv")%string = inr crime_df ->
    read_csv (_dir ++ "murder_percent.csv")%string = inr murder_df ->
    merge gdp_df crime_df = inr gdp_and_crime_df ->
    merge crime_df quality_of_life_df = inr crime_and_qol_df ->
    merge gdp_df murder_df = inr gdp_and_murder_df ->
    merge murder_df quality_of_life_df = inr murder_and_qol_df ->
    (Package.calculate_dependence_statistics Series_corr ttest_ind
       gdp_and_crime_df "GDP" "CRIME_INDEX" = Raise e ->
     App.run Series_corr ttest_ind read_csv merge to_csv_raises _dir p =
     (Raised (AnalyzerError e), p)) /\
    (Package.calculate_dependence_statistics Series_corr ttest_ind
       gdp_and_crime_df "GDP" "CRIME_INDEX" = Ok (crime_stats "GDP") ->
     (forall c, In c COMPARER_COLUMNS ->
        Package.calculate_dependence_statistics Series_corr ttest_ind
          crime_and_qol_df c "CRIME_INDEX" = Ok (crime_stats c)) ->
     to_csv_raises (_dir ++ "crime_dependencies.csv")%string = None ->
     Package.calculate_dependence_statistics Series_corr ttest_ind
       gdp_and_murder_df "GDP" "RATE_PER_100000_N" = Raise e ->
     App.run Series_corr ttest_ind read_csv merge to_csv_raises _dir p =
     (Raised (AnalyzerError e),
      mkProcess (console p) (shown p)
        (files p ++
         [ ((_dir ++ "crime_dependencies.csv")%string,
            table_of crime_stats) ]))).
Proof.
  intros Series_corr ttest_ind read_csv merge to_csv_raises _dir p
    gdp_df quality_of_life_df crime_df murder_df
    gdp_and_crime_df crime_and_qol_df gdp_and_murder_df murder_and_qol_df
    crime_stats e R1 R2 R3 R4 M1 M2 M3 M4.
  unfold App.run, App._read_df. rewrite R1, R2, R3, R4.
  rewrite (then_returned _ _ p p _ (library_returned _ _ p M1)).
  rewrite (then_returned _ _ p p _ (library_returned _ _ p M2)).
  rewrite (then_returned _ _ p p _ (library_returned _ _ p M3)).
  rewrite (then_returned _ _ p p _ (library_returned _ _ p M4)).
  cbv zeta. unfold App._create_df. split.
  - intros C1.
    now rewrite (then_raised _ _ p p _
                   (package_step_raises _ _ _ _ _ _ _ p C1)).
  - intros C1 C2 W1 U1.
    rewrite (then_returned _ _ p p _ (package_step_ok _ _ _ _ _ _ _ p C1)).
    rewrite (then_returned _ _ p p _
               (package_loop_ok _ _ _ _ crime_stats _ _ p C2)).
    rewrite first_table_rows, W1.
    rewrite (then_returned _ _ p _ _ (to_csv_written _ _ p)).
    now rewrite (then_raised _ _ _ _ _
                   (package_step_raises _ _ _ _ _ _ _ _ U1)).
Qed.

Lemma app_run_writes_crime_before_murder_witness :
  App.run any_corr any_ttest sample_read_csv_renamed sample_merge
    sample_to_csv "data/" (mkProcess [] [] []) =
  (Raised (AnalyzerError (KeyError "RATE_PER_100000_N")),
   mkProcess [] []
     [ ("data/crime_dependencies.csv",
        table_of (sample_stats crime_file "CRIME_INDEX")) ]).
Proof.
  refine (proj2 (app_run_writes_crime_before_murder any_corr any_ttest
                   sample_read_csv_renamed sample_merge sample_to_csv
                   "data/" (mkProcess [] [] [])
                   gdp_file quality_of_life_file crime_file
                   renamed_murder_file
                   (joined gdp_file crime_file)
                   (joined crime_file quality_of_life_file)
                   (joined gdp_file renamed_murder_file)
                   (joined renamed_murder_file quality_of_life_file)
                   (sample_stats crime_file "CRIME_INDEX")
                   (KeyError "RATE_PER_100000_N")
                   _ _ _ _ _ _ _ _) _ _ _ _);
    try reflexivity;
    intros c Hc; simpl in Hc;
    repeat (destruct Hc as [<- | Hc]; [vm_compute; reflexivity | ]);
    contradiction.
Defined.

(** [App.run] of [src/dependence_analyzer.py] when nothing raises: the
    four files are read (the murder file too, which is not used), the two
    crime tables joined, every statistic comes out and the write succeeds.
    Then the run prints nothing, shows no figure and writes one file,
    [crime_dependencies.csv] in the working directory, with exactly eight
    rows: [GDP], then the seven [COMPARER_COLUMNS] in their order. *)
Theorem root_run_writes_crime_table :
  forall (Series_corr : list float -> list float -> float)
         (ttest_ind : list float -> list float -> float * float)
         (read_csv : string -> string + DataFrame)
         (merge : DataFrame -> DataFrame -> string + DataFrame)
         (to_csv_raises : string -> option string)
         (p : Process)
         (gdp_df quality_of_life_df crime_df murder_df : DataFrame)
         (gdp_and_crime_df crime_and_qol_df : DataFrame)
         (crime_stats : string -> Stats),
    read_csv "gdp_per_capita.csv" = inr gdp_df ->
    read_csv "quality_of_life.csv" = inr quality_of_life_df ->
    read_csv "crime_index.csv" = inr crime_df ->
    read_csv "murder_percent.csv" = inr murder_df ->
    merge gdp_df crime_df = inr gdp_and_crime_df ->
    merge crime_df quality_of_life_df = inr crime_and_qol_df ->
    Root.calculate_dependence_statistics Series_corr ttest_ind
      gdp_and_crime_df "GDP" "CRIME_INDEX" = Ok (crime_stats "GDP") ->
    (forall c, In c COMPARER_COLUMNS ->
       Root.calculate_dependence_statistics Series_corr ttest_ind
         crime_and_qol_df c "CRIME_INDEX" = Ok (crime_stats c)) ->
    to_csv_raises "crime_dependencies.csv" = None ->
    RootApp.run Series_corr ttest_ind read_csv merge to_csv_raises p =
    (Returned tt,
     mkProcess (console p) (shown p)
       (files p ++ [ ("crime_dependencies.csv", table_of crime_stats) ])).
Proof.
  intros Series_corr ttest_ind read_csv merge to_csv_raises p
    gdp_df quality_of_life_df crime_df murder_df
    gdp_and_crime_df crime_and_qol_df crime_stats
    R1 R2 R3 R4 M1 M2 C1 C2 W1.
  unfold RootApp.run, RootApp._read_df. rewrite R1, R2, R3, R4.
  rewrite (then_returned _ _ p p _ (library_returned _ _ p M1)).
  rewrite (then_returned _ _ p p _ (library_returned _ _ p M2)).
  cbv zeta.
  rewrite (then_returned _ _ p p _ (root_step_ok _ _ _ _ _ _ _ p C1)).
  rewrite (then_returned _ _ p p _
             (root_loop_ok _ _ _ _ crime_stats _ _ p C2)).
  rewrite first_table_rows, W1. apply to_csv_written.
Qed.

Lemma root_run_writes_crime_table_witness :
  exists crime_stats,
    RootApp.run any_corr any_ttest sample_read_csv_here sample_merge
      sample_to_csv (mkProcess [] [] []) =
    (Returned tt,
     mkProcess [] [] [ ("crime_dependencies.csv", table_of crime_stats) ]).
Proof.
  exists (fun c =>
            match Root.calculate_dependence_statistics any_corr any_ttest
                    (if String.eqb c "GDP" then joined gdp_file crime_file
                     else joined crime_file quality_of_life_file)
                    c "CRIME_INDEX" with
            | Ok s => s
            | Raise _ => (nan, nan, nan, nan, nan, nan)
            end).
  refine (root_run_writes_crime_table any_corr any_ttest
            sample_read_csv_here sample_merge sample_to_csv
            (mkProcess [] [] [])
            gdp_file quality_of_life_file crime_file murder_file
            (joined gdp_file crime_file)
            (joined crime_file quality_of_life_file)
            _ _ _ _ _ _ _ _ _ _);
    try reflexivity;
    intros c Hc; simpl in Hc;
    repeat (destruct Hc as [<- | Hc]; [vm_compute; reflexivity | ]);
    contradiction.
Defined.

(* ================================================================== *)
(** * The two versions on tables of 3-decimal values *)

Lemma cell_unchanged (df : DataFrame) (k : nat) (r : Row) :
  (forall r x, In r (rows df) -> In x (cells r) -> NumPy.round x 3 = x) ->
  In r (rows df) -> NumPy.round (cell k r) 3 = cell k r.
Proof.
  intros H Hr. unfold cell.
  destruct (nth_in_or_default k (cells r) nan) as [Hin | ->].
  - now apply (H r).
  - reflexivity.
Qed.

Lemma series_round_unchanged (df : DataFrame) (k : nat) (f : Row -> bool) :
  (forall r x, In r (rows df) -> In x (cells r) -> NumPy.round x 3 = x) ->
  series (Pandas.round (getitem_mask df f) 3) k = series (getitem_mask df f) k.
Proof.
  intros H. rewrite series_round. unfold series, getitem_mask; simpl.
  rewrite map_map. apply map_ext_in. intros r Hr.
  apply filter_In in Hr. now apply (cell_unchanged df).
Qed.

(** On a table whose values all have at most 3 decimals (rounding leaves
    them as they are) and whose comparer median has too, the two versions
    split the table at the same median, and the package version, unless one
    of the statistics it rounds is the built-in NaN, where it raises, returns
    the root-level version's statistics with [median_comparable], the two
    group medians and the correlation rounded to 3 decimals;
    [median_comparer] and [p_value] are the same. *)
Theorem package_rounds_root_statistics_on_rounded_tables :
  forall (Series_corr : list float -> list float -> float)
         (ttest_ind : list float -> list float -> float * float)
         (df : DataFrame) (c d : string) (j k : nat),
    numeric_column df c = Ok j ->
    numeric_column df d = Ok k ->
    (forall r x, In r (rows df) -> In x (cells r) -> NumPy.round x 3 = x) ->
    NumPy.round (median (series df j)) 3 = median (series df j) ->
    exists a m h l r p,
      Root.calculate_dependence_statistics Series_corr ttest_ind df c d
        = Ok (a, m, h, l, r, p) /\
      Package.calculate_dependence_statistics Series_corr ttest_ind df c d
        = if builtin_nan_statistic df j k
          then Raise (AttributeError "round")
          else Ok (a, NumPy.round m 3, NumPy.round h 3, NumPy.round l 3,
                   NumPy.round r 3, p).
Proof.
  intros Series_corr ttest_ind df c d j k Hj Hk Hcells Hmed.
  rewrite (package_statistics _ _ _ _ _ _ _ Hj Hk),
          (root_statistics _ _ _ _ _ _ _ Hj Hk).
  cbv zeta.
  unfold Package.group_high_comparer,
    Package.group_low_comparer, Root.median_comparer,
    Root.group_high_comparer, Root.group_low_comparer.
  rewrite Hmed, !(series_round_unchanged df k _ Hcells).
  do 6 eexists. split; reflexivity.
Qed.

Lemma package_rounds_root_statistics_on_rounded_tables_witness :
  exists a m h l r p,
    Root.calculate_dependence_statistics any_corr any_ttest
      four_countries "X" "Y" = Ok (a, m, h, l, r, p) /\
    Package.calculate_dependence_statistics any_corr any_ttest
      four_countries "X" "Y"
      = Ok (a, NumPy.round m 3, NumPy.round h 3, NumPy.round l 3,
            NumPy.round r 3, p).
Proof.
  refine (package_rounds_root_statistics_on_rounded_tables
            any_corr any_ttest four_countries "X" "Y" 0 1
            eq_refl eq_refl _ eq_refl).
  intros r x Hr Hx. simpl in Hr.
  repeat (destruct Hr as [<- | Hr];
          [simpl in Hx;
           repeat (destruct Hx as [<- | Hx]; [reflexivity | ]);
           contradiction | ]).
  contradiction.
Defined.

(* ================================================================== *)
(** * The sign of the difference *)

Lemma abs_not_negative (x : float) : (abs x <? 0) = false.
Proof.
  rewrite FloatAxioms.ltb_spec, abs_spec. unfold SFltb.
  change (Prim2SF 0) with (S754_zero false).
  destruct (Prim2SF x) as [s | s | | s m e]; reflexivity.
Qed.

(** The [DIFFERENCE] that [_save_stats_to_df] stores is never negative:
    it is NaN or at least zero, whatever statistics it is given, also
    when the low group's median is the larger one. *)
Theorem difference_is_never_negative :
  forall (t : ResultTable) (c : string) (a h l m r p : float),
    row_written (Package._save_stats_to_df t c a h l m r p) c
      (fun row => (DIFFERENCE row <? 0) = false) /\
    row_written (Root._save_stats_to_df t c a h l m r p) c
      (fun row => (DIFFERENCE row <? 0) = false).
Proof.
  intros t c a h l m r p.
  split; apply row_written_save_stats; simpl; apply abs_not_negative.
Qed.
